(** * The Azure Monitor input plugin

    A shallow embedding of [plugins/inputs/azure_monitor/azure_monitor.go]
    and the properties of its poll cycle: response classification in
    [parseResponse], the per-timestamp grouping done by [Gather], and what
    reaches the accumulator. *)

From Stdlib Require Import ZArith String Ascii List PrimFloat SpecFloat FloatOps.
From stdpp Require Import base option list gmap strings pretty.

Set Warnings "-register-all".
Open Scope string_scope.
Open Scope list_scope.

(** ** Go values *)

(** A Go call returning [(T, error)] in which exactly one component carries
    information. *)
Inductive result (E A : Type) : Type :=
| Ok (a : A)
| Err (e : E).
Arguments Ok {E A} a.
Arguments Err {E A} e.

(** [interface{}] as [encoding/json] fills it: the dynamic types a decoded
    document can have.  Only [MetadataValues] holds such values. *)
Inductive any : Type :=
| any_nil
| any_bool (b : bool)
| any_float64 (f : float)
| any_string (s : string)
| any_slice (l : list any)
| any_map (m : gmap string any).

(** The calls into imported packages that can hand back an [error]. *)
Inductive call : Type :=
| http_NewRequest
| autorest_Prepare
| http_Client_Do
| io_ReadAll
| json_Decode
| auth_NewAuthorizerFromEnvironment.

(** Go's [error] values as this package sees them: its own
    [*AzureMonitorError], the value of [errors.New], and errors made by an
    imported package, kept with the call that returned them and their text. *)
Inductive error : Type :=
| AzureMonitorError (message : string)
| errors_New (text : string)
| call_error (c : call) (text : string).

(** [(e *AzureMonitorError) Error()] and the [Error()] of the others. *)
Definition Error (e : error) : string :=
  match e with
  | AzureMonitorError message => message
  | errors_New text => text
  | call_error _ text => text
  end.

(** ** Response model (the structs of the file)

    Rocq record fields share one name space, so the [Value] slice of
    [AzureMonitorResponse] is the field [Values]; [Value] is the string of
    [AzureMonitorResponseValueName], as in [value.Name.Value]. *)

Record AzureMonitorResponseValueName : Type := {
  LocalizedValue : string;
  Value : string
}.

Record AzureMonitorResponseTimeSeriesDatum : Type := {
  Average : float;
  TimeStamp : string
}.

Record AzureMonitorResponseTimeSeries : Type := {
  Data : list AzureMonitorResponseTimeSeriesDatum;
  MetadataValues : list (gmap string any)
}.

Record AzureMonitorResponseValue : Type := {
  DisplayDescription : string;
  ErrorCode : string;
  Id : string;
  Name : AzureMonitorResponseValueName;
  TimeSeries : list AzureMonitorResponseTimeSeries;
  Type_ : string;
  Unit : string
}.

Record AzureMonitorResponse : Type := {
  Cost : float;
  Interval : string;
  Namespace : string;
  ResourceRegion : string;
  Timespan : string;
  Values : list AzureMonitorResponseValue
}.

(** [AzureMonitorResponse{}]: every field at its zero value (a nil slice
    ranges like an empty one). *)
Definition AzureMonitorResponse_zero : AzureMonitorResponse :=
  {| Cost := 0%float; Interval := ""; Namespace := ""; ResourceRegion := "";
     Timespan := ""; Values := [] |}.

(** [*http.Response] as [parseResponse] uses it: the status code and what
    reading the body to its end gives, the bytes or the read error. *)
Record http_Response : Type := {
  StatusCode : Z;
  Body : result string string
}.

(** ** The imported packages

    The types of go-autorest, [net/http] and [time] that the plugin handles
    without looking inside. *)
Class Foreign : Type := {
  Authorizer : Type;
  Request : Type;
  Time : Type
}.

(** What the standard library, go-autorest and the host answer.  Each is a
    function of its arguments; within one call of [Init] or [Gather] each is
    called at most once per argument.  [map_range] is the order in which one
    [for ... range] statement visits a map: every entry once, in an order the
    language leaves open. *)
Class Externals `{F : Foreign} : Type := {
  NewAuthorizerFromEnvironment : result string Authorizer;
  NewRequest : string -> string -> result string Request;
  Prepare : Authorizer -> Request -> result string Request;
  Client_Do : Request -> result string http_Response;
  Decode : string -> result string AzureMonitorResponse;
  time_Parse_RFC3339 : string -> result string Time;
  map_range : gmap string nat -> list (string * nat);
  map_range_perm : forall m, map_range m ≡ₚ map_to_list m
}.

(** Go's ["%v"] verb on an [int]: the decimal digits, with a sign when
    negative. *)
Definition fmt_int (n : Z) : string := pretty n.

(** The line feed written ["\n"] in the source. *)
Definition LF : string := String (ascii_of_nat 10) EmptyString.

(** [for _, x := range l] over a slice with a body that can panic. *)
Fixpoint range_slice {S A : Type} (body : S -> A -> option S) (l : list A) (s : S)
    : option S :=
  match l with
  | [] => Some s
  | x :: l' =>
      match body s x with
      | Some s' => range_slice body l' s'
      | None => None
      end
  end.

(** How a Go function ends. *)
Inductive outcome (A : Type) : Type :=
| Returns (a : A)
| Panics.
Arguments Returns {A} a.
Arguments Panics {A}.

(** ** The map objects of [Gather]

    Go maps are references.  [fieldsByTimestamp] holds, per timestamp string,
    the address of an inner map; [slot] aliases that inner map and the
    assignment [slot[name] = ...] updates it in place.  The inner maps live in
    [inner], addressed by position; [make] appends a fresh empty one. *)
Record buckets : Type := {
  fieldsByTimestamp : gmap string nat;
  inner : list (gmap string float)
}.

Definition buckets_empty : buckets :=
  {| fieldsByTimestamp := ∅; inner := [] |}.

(** The body of the innermost loop (lines 154-159).  [None] is the run-time
    panic of an assignment into a nil map, or an address that was never
    allocated; [store_datum_put] shows that neither happens. *)
Definition store_datum (name : string) (b : buckets)
    (datum : AzureMonitorResponseTimeSeriesDatum) : option buckets :=
  let b1 :=
    match fieldsByTimestamp b !! TimeStamp datum with
    | Some _ => b
    | None =>
        {| fieldsByTimestamp :=
             <[TimeStamp datum := length (inner b)]> (fieldsByTimestamp b);
           inner := inner b ++ [∅] |}
    end in
  match fieldsByTimestamp b1 !! TimeStamp datum with
  | None => None
  | Some slot =>
      match inner b1 !! slot with
      | None => None
      | Some fields =>
          Some {| fieldsByTimestamp := fieldsByTimestamp b1;
                  inner := <[slot := <[name := Average datum]> fields]> (inner b1) |}
      end
  end.

Definition store_series (name : string) (b : buckets)
    (ts : AzureMonitorResponseTimeSeries) : option buckets :=
  range_slice (store_datum name) (Data ts) b.

Definition store_value (b : buckets) (value : AzureMonitorResponseValue)
    : option buckets :=
  let name := Value (Name value) in
  range_slice (store_series name) (TimeSeries value) b.

(** The grouping pass (lines 140 and 149-162), from the empty map. *)
Definition bucketize (monitorResponse : AzureMonitorResponse) : option buckets :=
  range_slice store_value (Values monitorResponse) buckets_empty.

(** The inner map an entry of [fieldsByTimestamp] refers to. *)
Definition deref (b : buckets) (slot : nat) : option (gmap string float) :=
  inner b !! slot.

(** ** Reading the result of the grouping pass *)

(** A datum together with the metric name it is stored under. *)
Definition point : Type := (string * AzureMonitorResponseTimeSeriesDatum)%type.

(** The data of a response in the order the three nested loops visit them. *)
Definition points_of_series (name : string) (ts : AzureMonitorResponseTimeSeries)
    : list point :=
  d ← Data ts; [(name, d)].

Definition points_of_value (value : AzureMonitorResponseValue) : list point :=
  ts ← TimeSeries value; points_of_series (Value (Name value)) ts.

Definition points (monitorResponse : AzureMonitorResponse) : list point :=
  value ← Values monitorResponse; points_of_value value.

(** The timestamp strings of a response, with repetitions. *)
Definition timestamps (monitorResponse : AzureMonitorResponse) : list string :=
  (fun p : point => TimeStamp p.2) <$> points monitorResponse.

(** What [fieldsByTimestamp] denotes: the inner maps themselves in place of
    their addresses. *)
Definition view (b : buckets) : gmap string (gmap string float) :=
  omap (deref b) (fieldsByTimestamp b).

(** Every address stored in [fieldsByTimestamp] is allocated and no two
    timestamps share an inner map. *)
Definition wf (b : buckets) : Prop :=
  (forall ts slot, fieldsByTimestamp b !! ts = Some slot -> slot < length (inner b)) /\
  (forall ts1 ts2 slot, fieldsByTimestamp b !! ts1 = Some slot ->
     fieldsByTimestamp b !! ts2 = Some slot -> ts1 = ts2).

(** One step of the innermost loop on the denoted map. *)
Definition put (m : gmap string (gmap string float)) (p : point)
    : gmap string (gmap string float) :=
  <[TimeStamp p.2 := <[p.1 := Average p.2]> (default ∅ (m !! TimeStamp p.2))]> m.

(** The fields obtained by writing, in traversal order, every datum that
    carries the timestamp string [ts]. *)
Definition merged (ps : list point) (ts : string) : gmap string float :=
  foldl (fun f (p : point) => <[p.1 := Average p.2]> f) ∅
        (filter (fun p : point => TimeStamp p.2 = ts) ps).

(** The average of the last datum, in traversal order, stored under [name]
    with the timestamp string [ts]. *)
Definition last_written (ps : list point) (ts name : string) : option float :=
  (fun p : point => Average p.2)
    <$> last (filter (fun p : point => TimeStamp p.2 = ts /\ p.1 = name) ps).

Section Plugin.
Context `{F : Foreign}.

(** One call of [acc.AddFields(measurement, fields, tags, t...)], with the
    contents of the two maps at the time of the call.  The accumulator reads
    the maps it is handed and does not write to them. *)
Record Metric : Type := {
  measurement : string;
  fields : gmap string float;
  tags : gmap string string;
  t : list Time
}.

(** What a poll cycle does outside its own variables: the calls that reach
    the identity provider, the network and the accumulator, and the run of
    the JSON decoder. *)
Inductive event : Type :=
| ev_NewAuthorizerFromEnvironment
| ev_Prepare (req : Request)
| ev_Do (req : Request)
| ev_ReadAll
| ev_Close
| ev_Decode (body : string)
| ev_AddFields (m : Metric).

(** A computation: the events it caused, oldest first, and how it ended. *)
Definition M (A : Type) : Type := (list event * outcome A)%type.

Definition ret {A : Type} (a : A) : M A := ([], Returns a).

Definition bind {A B : Type} (m : M A) (k : A -> M B) : M B :=
  match m with
  | (l, Returns a) => let '(l', r) := k a in (l ++ l', r)
  | (l, Panics) => (l, Panics)
  end.

Definition emit (e : event) : M unit := ([e], Returns tt).

Definition panic {A : Type} : M A := ([], Panics).

Definition events {A : Type} (m : M A) : list event := m.1.

Definition ending {A : Type} (m : M A) : outcome A := m.2.

(** The metrics handed to the accumulator, in call order. *)
Definition added (l : list event) : list Metric :=
  omap (fun e => match e with ev_AddFields m => Some m | _ => None end) l.

Local Notation "x <- m ;; k" := (bind m (fun x => k))
  (at level 20, m at level 99, k at level 200, only parsing).

(** ** The plugin *)

(** [AzureMonitor]: the configured resource and the authorizer, nil until
    [Init] has set it.  The [Log] field is never used. *)
Record AzureMonitor : Type := {
  ResourceId : string;
  authorizer : option Authorizer
}.

Context `{X : !Externals}.

(** [parseResponse] (lines 61-80).  The deferred [Close] runs when the
    function returns, on every path. *)
Definition parseResponse (resp : http_Response)
    : M (AzureMonitorResponse * option error) :=
  r <- (_ <- emit ev_ReadAll ;;
        match Body resp with
        | Err err => ret (AzureMonitorResponse_zero, Some (call_error io_ReadAll err))
        | Ok body =>
            if (StatusCode resp <? 200)%Z || (StatusCode resp >? 299)%Z then
              ret (AzureMonitorResponse_zero,
                   Some (AzureMonitorError
                     ("Azure monitor request returned error. Status "
                        +:+ fmt_int (StatusCode resp) +:+ ":" +:+ LF +:+ body)))
            else
              _ <- emit (ev_Decode body) ;;
              match Decode body with
              | Err err => ret (AzureMonitorResponse_zero, Some (call_error json_Decode err))
              | Ok response => ret (response, None)
              end
        end) ;;
  _ <- emit ev_Close ;;
  ret r.

(** [Init] (lines 100-111): the plugin afterwards and the returned error. *)
Definition Init (a : AzureMonitor) : M (AzureMonitor * option error) :=
  if String.eqb (ResourceId a) "" then
    ret (a, Some (errors_New "resource_id must be configured"))
  else
    _ <- emit ev_NewAuthorizerFromEnvironment ;;
    match NewAuthorizerFromEnvironment with
    | Err err => ret (a, Some (call_error auth_NewAuthorizerFromEnvironment err))
    | Ok authorizer =>
        ret ({| ResourceId := ResourceId a; authorizer := Some authorizer |}, None)
    end.

(** [makeRequest] (lines 113-127).  Calling [WithAuthorization] on a nil
    authorizer panics. *)
Definition makeRequest (a : AzureMonitor) : M (result error http_Response) :=
  let url := "https://management.azure.com/" +:+ ResourceId a
               +:+ "/providers/microsoft.insights/metrics?api-version=2018-01-01" in
  match NewRequest "GET" url with
  | Err err => ret (Err (call_error http_NewRequest err))
  | Ok req =>
      match authorizer a with
      | None => panic
      | Some au =>
          _ <- emit (ev_Prepare req) ;;
          match Prepare au req with
          | Err err => ret (Err (call_error autorest_Prepare err))
          | Ok req =>
              _ <- emit (ev_Do req) ;;
              match Client_Do req with
              | Err err => ret (Err (call_error http_Client_Do err))
              | Ok resp => ret (Ok resp)
              end
          end
      end
  end.

(** The body of the second loop of [Gather] (lines 164-171) for one entry. *)
Definition emit_entry (b : buckets) (tags : gmap string string)
    (entry : string * nat) : M unit :=
  let '(ts, slot) := entry in
  match time_Parse_RFC3339 ts with
  | Err _ => ret tt
  | Ok timestamp =>
      match deref b slot with
      | None => panic
      | Some fields =>
          emit (ev_AddFields {| measurement := "azure_monitor"; fields := fields;
                                tags := tags; t := [timestamp] |})
      end
  end.

(** [for ts, fields := range fieldsByTimestamp], over the entries in the
    order the range visits them. *)
Fixpoint emit_all (b : buckets) (tags : gmap string string)
    (entries : list (string * nat)) : M unit :=
  match entries with
  | [] => ret tt
  | entry :: rest => _ <- emit_entry b tags entry ;; emit_all b tags rest
  end.

(** [Gather] (lines 129-174). *)
Definition Gather (a : AzureMonitor) : M (option error) :=
  r <- makeRequest a ;;
  match r with
  | Err err => ret (Some err)
  | Ok resp =>
      p <- parseResponse resp ;;
      match p.2 with
      | Some err => ret (Some err)
      | None =>
          let monitorResponse := p.1 in
          let tags : gmap string string := <["resource_id" := ResourceId a]> ∅ in
          match bucketize monitorResponse with
          | None => panic
          | Some b =>
              _ <- emit_all b tags (map_range (fieldsByTimestamp b)) ;;
              ret None
          end
      end
  end.

(** The result of [time.Parse] when it reports no error. *)
Definition parsed (ts : string) : option Time :=
  match time_Parse_RFC3339 ts with
  | Ok timestamp => Some timestamp
  | Err _ => None
  end.

(** The metric one entry of [fieldsByTimestamp] is emitted as, if any. *)
Definition metric_of (b : buckets) (tags : gmap string string)
    (entry : string * nat) : option Metric :=
  timestamp ← parsed entry.1;
  fields ← deref b entry.2;
  Some {| measurement := "azure_monitor"; fields := fields; tags := tags;
          t := [timestamp] |}.

(** The FieldSet of the timestamp string [ts]: the merged fields of the data
    that carry [ts], tagged with the resource, at the parsed time. *)
Definition FieldSet (a : AzureMonitor) (r : AzureMonitorResponse)
    (ts : string) (timestamp : Time) : Metric :=
  {| measurement := "azure_monitor";
     fields := merged (points r) ts;
     tags := {[ "resource_id" := ResourceId a ]};
     t := [timestamp] |}.

End Plugin.

(** * A reference environment

    A concrete [Externals] to run the plugin on: a decoder for JSON text
    (RFC 8259) that fills the response structs by the rules of
    [encoding/json], the strict RFC 3339 reader of package [time], and a
    server that answers from a function.  The error texts are abbreviated. *)

(** ** Characters *)

Definition code (c : ascii) : Z := Z.of_N (N_of_ascii c).

Definition char (n : Z) : ascii := ascii_of_N (Z.to_N n).

Definition dquote : ascii := char 34.

Definition backslash : ascii := char 92.

(** JSON text written with apostrophes in place of double quotes. *)
Fixpoint quoted (s : string) : string :=
  match s with
  | EmptyString => EmptyString
  | String c r => String (if Ascii.eqb c "'" then dquote else c) (quoted r)
  end.

Definition is_space (c : ascii) : bool :=
  let n := code c in ((n =? 32) || (n =? 9) || (n =? 10) || (n =? 13))%Z.

Definition digit_of (c : ascii) : option Z :=
  let n := code c in
  if ((48 <=? n) && (n <=? 57))%Z then Some (n - 48)%Z else None.

Definition hex_of (c : ascii) : option Z :=
  let n := code c in
  if ((48 <=? n) && (n <=? 57))%Z then Some (n - 48)%Z
  else if ((97 <=? n) && (n <=? 102))%Z then Some (n - 87)%Z
  else if ((65 <=? n) && (n <=? 70))%Z then Some (n - 55)%Z
  else None.

Fixpoint skip_space (s : string) : string :=
  match s with
  | String c r => if is_space c then skip_space r else s
  | EmptyString => s
  end.

(** The rest of [s] after the prefix [p]. *)
Fixpoint strip (p s : string) : option string :=
  match p, s with
  | EmptyString, _ => Some s
  | String a p', String b s' => if Ascii.eqb a b then strip p' s' else None
  | String _ _, EmptyString => None
  end.

(** A maximal run of decimal digits: its value after [acc], how many digits
    were read after [count], and the rest. *)
Fixpoint read_digits (s : string) (acc count : Z) : Z * Z * string :=
  match s with
  | String c r =>
      match digit_of c with
      | Some d => read_digits r (10 * acc + d)%Z (count + 1)%Z
      | None => (acc, count, s)
      end
  | EmptyString => (acc, count, s)
  end.

(** ** JSON text *)

(** A JSON value; a number is kept exactly, as [mant * 10 ^ exp10] with its
    sign apart. *)
Inductive json : Type :=
| JNull
| JBool (b : bool)
| JNumber (neg : bool) (mant exp10 : Z)
| JString (s : string)
| JArray (l : list json)
| JObject (members : list (string * json)).

Definition read_fraction (int : Z) (s : string) : option (Z * Z * string) :=
  match s with
  | String c r =>
      if Ascii.eqb c "." then
        let '(m, n, r') := read_digits r int 0%Z in
        if (n =? 0)%Z then None else Some (m, n, r')
      else Some (int, 0%Z, s)
  | EmptyString => Some (int, 0%Z, s)
  end.

Definition read_exponent (s : string) : option (Z * string) :=
  match s with
  | String c r =>
      if Ascii.eqb c "e" || Ascii.eqb c "E" then
        let '(minus, r1) :=
          match r with
          | String c' r' =>
              if Ascii.eqb c' "+" then (false, r')
              else if Ascii.eqb c' "-" then (true, r')
              else (false, r)
          | EmptyString => (false, r)
          end in
        let '(e, n, r2) := read_digits r1 0%Z 0%Z in
        if (n =? 0)%Z then None else Some (if minus then (- e)%Z else e, r2)
      else Some (0%Z, s)
  | EmptyString => Some (0%Z, s)
  end.

(** A number: an optional minus, an integer part without leading zero, an
    optional fraction and an optional exponent, each with a digit. *)
Definition read_number (s : string) : option (json * string) :=
  let '(neg, s0) :=
    match s with
    | String c r => if Ascii.eqb c "-" then (true, r) else (false, s)
    | EmptyString => (false, s)
    end in
  match s0 with
  | EmptyString => None
  | String c r =>
      match digit_of c with
      | None => None
      | Some d =>
          let '(int, _, s1) := if (d =? 0)%Z then (0%Z, 1%Z, r) else read_digits r d 1%Z in
          match read_fraction int s1 with
          | None => None
          | Some (mant, fdigits, s2) =>
              match read_exponent s2 with
              | None => None
              | Some (e, s3) => Some (JNumber neg mant (e - fdigits)%Z, s3)
              end
          end
      end
  end.

(** What a string literal is made of: bytes as written and \u escapes. *)
Inductive unit16 : Type :=
| raw (c : ascii)
| escaped (u : Z).

Definition hex4 (a b c d : ascii) : option Z :=
  match hex_of a, hex_of b, hex_of c, hex_of d with
  | Some x, Some y, Some z, Some w => Some (((x * 16 + y) * 16 + z) * 16 + w)%Z
  | _, _, _, _ => None
  end.

Definition simple_escape (e : ascii) : option ascii :=
  if Ascii.eqb e dquote then Some dquote
  else if Ascii.eqb e backslash then Some backslash
  else if Ascii.eqb e "/" then Some "/"%char
  else if Ascii.eqb e "b" then Some (char 8)
  else if Ascii.eqb e "f" then Some (char 12)
  else if Ascii.eqb e "n" then Some (char 10)
  else if Ascii.eqb e "r" then Some (char 13)
  else if Ascii.eqb e "t" then Some (char 9)
  else None.

(** The text after an opening quote, up to the closing one. *)
Fixpoint read_string (s : string) : option (list unit16 * string) :=
  match s with
  | EmptyString => None
  | String c r =>
      if Ascii.eqb c dquote then Some ([], r)
      else if Ascii.eqb c backslash then
        match r with
        | EmptyString => None
        | String e r1 =>
            if Ascii.eqb e "u" then
              match r1 with
              | String h1 (String h2 (String h3 (String h4 r2))) =>
                  match hex4 h1 h2 h3 h4 with
                  | Some u =>
                      match read_string r2 with
                      | Some (us, rest) => Some (escaped u :: us, rest)
                      | None => None
                      end
                  | None => None
                  end
              | _ => None
              end
            else
              match simple_escape e with
              | Some ch =>
                  match read_string r1 with
                  | Some (us, rest) => Some (raw ch :: us, rest)
                  | None => None
                  end
              | None => None
              end
        end
      else if (code c <? 32)%Z then None
      else
        match read_string r with
        | Some (us, rest) => Some (raw c :: us, rest)
        | None => None
        end
  end.

(** UTF-8 of a code point. *)
Definition utf8 (r : Z) : string :=
  if (r <? 128)%Z then String (char r) ""
  else if (r <? 2048)%Z then
    String (char (192 + r / 64)) (String (char (128 + r mod 64)) "")
  else if (r <? 65536)%Z then
    String (char (224 + r / 4096))
      (String (char (128 + (r / 64) mod 64)) (String (char (128 + r mod 64)) ""))
  else
    String (char (240 + r / 262144))
      (String (char (128 + (r / 4096) mod 64))
         (String (char (128 + (r / 64) mod 64)) (String (char (128 + r mod 64)) ""))).

Definition is_high (u : Z) : bool := ((55296 <=? u) && (u <? 56320))%Z.

Definition is_low (u : Z) : bool := ((56320 <=? u) && (u <? 57344))%Z.

(** The bytes of a string literal: a surrogate pair is one code point, a lone
    surrogate becomes U+FFFD; bytes written outside ASCII are kept as they
    are. *)
Fixpoint string_of_units (us : list unit16) : string :=
  match us with
  | [] => ""
  | raw c :: rest => String c (string_of_units rest)
  | escaped hi :: rest =>
      if is_high hi || is_low hi then
        match rest with
        | escaped lo :: rest' =>
            if is_high hi && is_low lo then
              utf8 (65536 + (hi - 55296) * 1024 + (lo - 56320))%Z
                +:+ string_of_units rest'
            else utf8 65533 +:+ string_of_units rest
        | _ => utf8 65533 +:+ string_of_units rest
        end
      else utf8 hi +:+ string_of_units rest
  end.

(** The first JSON value of a text and what follows it.  [fuel] bounds the
    number of nested calls; the length of the text plus one is enough. *)
Fixpoint parse_value (fuel : nat) (s : string) : option (json * string) :=
  match fuel with
  | O => None
  | S fuel =>
      match skip_space s with
      | EmptyString => None
      | String c r =>
          if Ascii.eqb c "{" then
            match skip_space r with
            | EmptyString => None
            | String c' r' =>
                if Ascii.eqb c' "}" then Some (JObject [], r')
                else
                  match parse_members fuel r with
                  | Some (ms, rest) => Some (JObject ms, rest)
                  | None => None
                  end
            end
          else if Ascii.eqb c "[" then
            match skip_space r with
            | EmptyString => None
            | String c' r' =>
                if Ascii.eqb c' "]" then Some (JArray [], r')
                else
                  match parse_elements fuel r with
                  | Some (js, rest) => Some (JArray js, rest)
                  | None => None
                  end
            end
          else if Ascii.eqb c dquote then
            match read_string r with
            | Some (us, rest) => Some (JString (string_of_units us), rest)
            | None => None
            end
          else if Ascii.eqb c "t" then
            match strip "rue" r with
            | Some rest => Some (JBool true, rest)
            | None => None
            end
          else if Ascii.eqb c "f" then
            match strip "alse" r with
            | Some rest => Some (JBool false, rest)
            | None => None
            end
          else if Ascii.eqb c "n" then
            match strip "ull" r with
            | Some rest => Some (JNull, rest)
            | None => None
            end
          else read_number (String c r)
      end
  end
with parse_members (fuel : nat) (s : string) : option (list (string * json) * string) :=
  match fuel with
  | O => None
  | S fuel =>
      match skip_space s with
      | EmptyString => None
      | String c r =>
          if Ascii.eqb c dquote then
            match read_string r with
            | None => None
            | Some (us, r1) =>
                match skip_space r1 with
                | EmptyString => None
                | String c1 r2 =>
                    if Ascii.eqb c1 ":" then
                      match parse_value fuel r2 with
                      | None => None
                      | Some (v, r3) =>
                          match skip_space r3 with
                          | EmptyString => None
                          | String c3 r4 =>
                              if Ascii.eqb c3 "," then
                                match parse_members fuel r4 with
                                | Some (ms, rest) =>
                                    Some ((string_of_units us, v) :: ms, rest)
                                | None => None
                                end
                              else if Ascii.eqb c3 "}" then
                                Some ([(string_of_units us, v)], r4)
                              else None
                          end
                      end
                    else None
                end
            end
          else None
      end
  end
with parse_elements (fuel : nat) (s : string) : option (list json * string) :=
  match fuel with
  | O => None
  | S fuel =>
      match parse_value fuel s with
      | None => None
      | Some (v, r1) =>
          match skip_space r1 with
          | EmptyString => None
          | String c r2 =>
              if Ascii.eqb c "," then
                match parse_elements fuel r2 with
                | Some (js, rest) => Some (v :: js, rest)
                | None => None
                end
              else if Ascii.eqb c "]" then Some ([v], r2)
              else None
          end
      end
  end.

(** ** Filling Go values from JSON *)

(** [strconv.ParseFloat(s, 64)] on a JSON number: the nearest float64, ties
    to even. *)
Definition float_of_decimal (neg : bool) (mant exp10 : Z) : spec_float :=
  if (mant =? 0)%Z then S754_zero neg
  else if (0 <=? exp10)%Z then
    let n := (mant * 10 ^ exp10)%Z in
    binary_normalize prec emax (if neg then (- n)%Z else n) 0%Z neg
  else
    SFdiv prec emax (S754_finite neg (Z.to_pos mant) 0%Z)
          (S754_finite false (Z.to_pos (10 ^ (- exp10))) 0%Z).

(** The name under which a key is looked up among the fields of a struct:
    ASCII letters in upper case, and the two letters outside ASCII that fold
    onto ASCII ones (U+017F onto S, U+212A onto K).  The field names of the
    response structs are ASCII and differ from each other after folding. *)
Fixpoint fold_name (s : string) : string :=
  match s with
  | EmptyString => EmptyString
  | String c r =>
      let n := code c in
      if ((97 <=? n) && (n <=? 122))%Z then String (char (n - 32)) (fold_name r)
      else
        match r with
        | String c2 r2 =>
            if ((n =? 197) && (code c2 =? 191))%Z then String "S" (fold_name r2)
            else
              match r2 with
              | String c3 r3 =>
                  if ((n =? 226) && (code c2 =? 132) && (code c3 =? 170))%Z
                  then String "K" (fold_name r3)
                  else String c (fold_name r)
              | EmptyString => String c (fold_name r)
              end
        | EmptyString => String c (fold_name r)
        end
  end.

Definition and_then {E A B : Type} (x : result E A) (k : A -> result E B)
    : result E B :=
  match x with
  | Ok a => k a
  | Err e => Err e
  end.

(** A JSON null leaves a string, a number or a struct as it is and makes a
    slice or a map nil; a value of the wrong kind is an error. *)
Definition into_string (cur : string) (j : json) : result string string :=
  match j with
  | JNull => Ok cur
  | JString s => Ok s
  | _ => Err "json: cannot unmarshal into Go value of type string"
  end.

Definition into_float64 (cur : float) (j : json) : result string float :=
  match j with
  | JNull => Ok cur
  | JNumber neg mant exp10 =>
      match float_of_decimal neg mant exp10 with
      | S754_infinity _ => Err "json: cannot unmarshal number into Go value of type float64"
      | f => Ok (SF2Prim f)
      end
  | _ => Err "json: cannot unmarshal into Go value of type float64"
  end.

(** A JSON value stored into an [interface{}]. *)
Fixpoint to_any (j : json) : result string any :=
  match j with
  | JNull => Ok any_nil
  | JBool b => Ok (any_bool b)
  | JNumber neg mant exp10 =>
      match float_of_decimal neg mant exp10 with
      | S754_infinity _ => Err "json: cannot unmarshal number into Go value of type float64"
      | f => Ok (any_float64 (SF2Prim f))
      end
  | JString s => Ok (any_string s)
  | JArray l =>
      and_then
        ((fix elements (l : list json) : result string (list any) :=
            match l with
            | [] => Ok []
            | x :: l' =>
                and_then (to_any x) (fun a =>
                and_then (elements l') (fun r => Ok (a :: r)))
            end) l)
        (fun r => Ok (any_slice r))
  | JObject ms =>
      and_then
        ((fix members (ms : list (string * json)) (m : gmap string any)
              : result string (gmap string any) :=
            match ms with
            | [] => Ok m
            | (k, v) :: ms' => and_then (to_any v) (fun a => members ms' (<[k := a]> m))
            end) ms ∅)
        (fun m => Ok (any_map m))
  end.

(** Into a [map[string]interface{}]: the map is kept and each member is set. *)
Fixpoint into_map_members (cur : gmap string any) (ms : list (string * json))
    : result string (gmap string any) :=
  match ms with
  | [] => Ok cur
  | (k, v) :: ms' => and_then (to_any v) (fun a => into_map_members (<[k := a]> cur) ms')
  end.

Definition into_map (cur : gmap string any) (j : json) : result string (gmap string any) :=
  match j with
  | JNull => Ok ∅
  | JObject ms => into_map_members cur ms
  | _ => Err "json: cannot unmarshal into Go value of type map[string]interface {}"
  end.

(** Into a struct: each member in turn is stored into the field its folded
    key names; [field] ignores the keys that name none. *)
Fixpoint into_members {A : Type} (field : string -> A -> json -> result string A)
    (cur : A) (ms : list (string * json)) : result string A :=
  match ms with
  | [] => Ok cur
  | (k, v) :: ms' =>
      and_then (field (fold_name k) cur v) (fun cur' => into_members field cur' ms')
  end.

Definition into_struct {A : Type} (field : string -> A -> json -> result string A)
    (cur : A) (j : json) : result string A :=
  match j with
  | JNull => Ok cur
  | JObject ms => into_members field cur ms
  | _ => Err "json: cannot unmarshal into Go value of struct type"
  end.

(** Into a slice: element [i] of the array is stored into element [i] of the
    slice when there is one, into a zero element otherwise; the slice ends up
    as long as the array. *)
Fixpoint into_elements {A : Type} (elem : A -> json -> result string A) (zero : A)
    (cur : list A) (js : list json) : result string (list A) :=
  match js with
  | [] => Ok []
  | j :: js' =>
      let c := match cur with [] => zero | c :: _ => c end in
      let cur' := match cur with [] => [] | _ :: cur' => cur' end in
      and_then (elem c j) (fun x =>
      and_then (into_elements elem zero cur' js') (fun xs => Ok (x :: xs)))
  end.

Definition into_slice {A : Type} (elem : A -> json -> result string A) (zero : A)
    (cur : list A) (j : json) : result string (list A) :=
  match j with
  | JNull => Ok []
  | JArray js => into_elements elem zero cur js
  | _ => Err "json: cannot unmarshal into Go value of slice type"
  end.

Definition Name_field (key : string) (cur : AzureMonitorResponseValueName) (j : json)
    : result string AzureMonitorResponseValueName :=
  if String.eqb key "LOCALIZEDVALUE" then
    and_then (into_string (LocalizedValue cur) j) (fun x =>
      Ok {| LocalizedValue := x; Value := Value cur |})
  else if String.eqb key "VALUE" then
    and_then (into_string (Value cur) j) (fun x =>
      Ok {| LocalizedValue := LocalizedValue cur; Value := x |})
  else Ok cur.

Definition Datum_field (key : string) (cur : AzureMonitorResponseTimeSeriesDatum)
    (j : json) : result string AzureMonitorResponseTimeSeriesDatum :=
  if String.eqb key "AVERAGE" then
    and_then (into_float64 (Average cur) j) (fun x =>
      Ok {| Average := x; TimeStamp := TimeStamp cur |})
  else if String.eqb key "TIMESTAMP" then
    and_then (into_string (TimeStamp cur) j) (fun x =>
      Ok {| Average := Average cur; TimeStamp := x |})
  else Ok cur.

Definition Datum_zero : AzureMonitorResponseTimeSeriesDatum :=
  {| Average := 0%float; TimeStamp := "" |}.

Definition TimeSeries_field (key : string) (cur : AzureMonitorResponseTimeSeries)
    (j : json) : result string AzureMonitorResponseTimeSeries :=
  if String.eqb key "DATA" then
    and_then (into_slice (into_struct Datum_field) Datum_zero (Data cur) j) (fun x =>
      Ok {| Data := x; MetadataValues := MetadataValues cur |})
  else if String.eqb key "METADATAVALUES" then
    and_then (into_slice into_map ∅ (MetadataValues cur) j) (fun x =>
      Ok {| Data := Data cur; MetadataValues := x |})
  else Ok cur.

Definition TimeSeries_zero : AzureMonitorResponseTimeSeries :=
  {| Data := []; MetadataValues := [] |}.

Definition Value_field (key : string) (cur : AzureMonitorResponseValue) (j : json)
    : result string AzureMonitorResponseValue :=
  let set dd ec id nm ts ty un :=
    {| DisplayDescription := dd; ErrorCode := ec; Id := id; Name := nm;
       TimeSeries := ts; Type_ := ty; Unit := un |} in
  let '(dd, ec, id, nm, ts, ty, un) :=
    (DisplayDescription cur, ErrorCode cur, Id cur, Name cur, TimeSeries cur,
     Type_ cur, Unit cur) in
  if String.eqb key "DISPLAYDESCRIPTION" then
    and_then (into_string dd j) (fun x => Ok (set x ec id nm ts ty un))
  else if String.eqb key "ERRORCODE" then
    and_then (into_string ec j) (fun x => Ok (set dd x id nm ts ty un))
  else if String.eqb key "ID" then
    and_then (into_string id j) (fun x => Ok (set dd ec x nm ts ty un))
  else if String.eqb key "NAME" then
    and_then (into_struct Name_field nm j) (fun x => Ok (set dd ec id x ts ty un))
  else if String.eqb key "TIMESERIES" then
    and_then (into_slice (into_struct TimeSeries_field) TimeSeries_zero ts j)
      (fun x => Ok (set dd ec id nm x ty un))
  else if String.eqb key "TYPE" then
    and_then (into_string ty j) (fun x => Ok (set dd ec id nm ts x un))
  else if String.eqb key "UNIT" then
    and_then (into_string un j) (fun x => Ok (set dd ec id nm ts ty x))
  else Ok cur.

Definition Value_zero : AzureMonitorResponseValue :=
  {| DisplayDescription := ""; ErrorCode := ""; Id := "";
     Name := {| LocalizedValue := ""; Value := "" |};
     TimeSeries := []; Type_ := ""; Unit := "" |}.

Definition Response_field (key : string) (cur : AzureMonitorResponse) (j : json)
    : result string AzureMonitorResponse :=
  let set co iv ns rr tsp vs :=
    {| Cost := co; Interval := iv; Namespace := ns; ResourceRegion := rr;
       Timespan := tsp; Values := vs |} in
  let '(co, iv, ns, rr, tsp, vs) :=
    (Cost cur, Interval cur, Namespace cur, ResourceRegion cur, Timespan cur,
     Values cur) in
  if String.eqb key "COST" then
    and_then (into_float64 co j) (fun x => Ok (set x iv ns rr tsp vs))
  else if String.eqb key "INTERVAL" then
    and_then (into_string iv j) (fun x => Ok (set co x ns rr tsp vs))
  else if String.eqb key "NAMESPACE" then
    and_then (into_string ns j) (fun x => Ok (set co iv x rr tsp vs))
  else if String.eqb key "RESOURCEREGION" then
    and_then (into_string rr j) (fun x => Ok (set co iv ns x tsp vs))
  else if String.eqb key "TIMESPAN" then
    and_then (into_string tsp j) (fun x => Ok (set co iv ns rr x vs))
  else if String.eqb key "VALUE" then
    and_then (into_slice (into_struct Value_field) Value_zero vs j)
      (fun x => Ok (set co iv ns rr tsp x))
  else Ok cur.

(** [json.NewDecoder(...).Decode(&response)] on a zero [response]: the first
    JSON value of the text is decoded, what follows it is not looked at. *)
Definition json_decode (body : string) : result string AzureMonitorResponse :=
  match parse_value (S (String.length body)) body with
  | None =>
      match skip_space body with
      | EmptyString => Err "EOF"
      | _ => Err "json: syntax error"
      end
  | Some (j, _) => into_struct Response_field AzureMonitorResponse_zero j
  end.

(** ** RFC 3339 timestamps *)

(** A [time.Time] read from a timestamp: the instant, in seconds since the
    Unix epoch and nanoseconds, and the zone offset in seconds east of UTC. *)
Record instant : Type := {
  unixSec : Z;
  nsec : Z;
  zoneOffset : Z
}.

Definition is_leap (year : Z) : bool :=
  ((year mod 4 =? 0) && (negb (year mod 100 =? 0) || (year mod 400 =? 0)))%Z.

Definition daysIn (month year : Z) : Z :=
  if (month =? 2)%Z then (if is_leap year then 29 else 28)%Z
  else if ((month =? 4) || (month =? 6) || (month =? 9) || (month =? 11))%Z then 30%Z
  else 31%Z.

(** Days from 1970-01-01 to the given civil date. *)
Definition days_from_civil (year month day : Z) : Z :=
  let y := (if month <=? 2 then year - 1 else year)%Z in
  let era := (y / 400)%Z in
  let yoe := (y - era * 400)%Z in
  let mp := (if month <=? 2 then month + 9 else month - 3)%Z in
  let doy := ((153 * mp + 2) / 5 + day - 1)%Z in
  let doe := (yoe * 365 + yoe / 4 - yoe / 100 + doy)%Z in
  (era * 146097 + doe - 719468)%Z.

(** Exactly [n] digits with a value between [lo] and [hi], and the rest. *)
Fixpoint fixed_digits (n : nat) (s : string) (acc : Z) : option (Z * string) :=
  match n with
  | O => Some (acc, s)
  | S n' =>
      match s with
      | String c r =>
          match digit_of c with
          | Some d => fixed_digits n' r (10 * acc + d)%Z
          | None => None
          end
      | EmptyString => None
      end
  end.

Definition parseUint (n : nat) (s : string) (lo hi : Z) : option (Z * string) :=
  match fixed_digits n s 0%Z with
  | Some (x, r) => if ((lo <=? x) && (x <=? hi))%Z then Some (x, r) else None
  | None => None
  end.

Definition expect (c : ascii) (s : string) : option string :=
  match s with
  | String c' r => if Ascii.eqb c c' then Some r else None
  | EmptyString => None
  end.

(** The digits of a fraction of a second, as nanoseconds: nine digits count,
    further ones are dropped. *)
Fixpoint read_nanoseconds (s : string) (acc : Z) (left : nat) : Z * string :=
  match s with
  | String c r =>
      match digit_of c with
      | Some d =>
          match left with
          | O => read_nanoseconds r acc O
          | S left' => read_nanoseconds r (acc + d * 10 ^ Z.of_nat left')%Z left'
          end
      | None => (acc, s)
      end
  | EmptyString => (acc, s)
  end.

Definition read_fraction_of_second (s : string) : Z * string :=
  match s with
  | String c (String d r) =>
      if Ascii.eqb c "." then
        match digit_of d with
        | Some _ => read_nanoseconds (String d r) 0%Z 9
        | None => (0%Z, s)
        end
      else (0%Z, s)
  | _ => (0%Z, s)
  end.

Definition read_zone (s : string) : option Z :=
  if String.eqb s "Z" then Some 0%Z
  else
    match s with
    | String sign r =>
        if Ascii.eqb sign "+" || Ascii.eqb sign "-" then
          hr ← parseUint 2 r 0 23;
          r1 ← expect ":" hr.2;
          mm ← parseUint 2 r1 0 59;
          match mm.2 with
          | EmptyString =>
              let offset := ((hr.1 * 60 + mm.1) * 60)%Z in
              Some (if Ascii.eqb sign "-" then (- offset)%Z else offset)
          | _ => None
          end
        else None
    | EmptyString => None
    end.

(** [time.Parse(time.RFC3339, s)] on the timestamps of RFC 3339 section 5.6
    with an upper-case [T] and [Z].  Go's reader lets through a few
    spellings outside that grammar, which this one refuses: a one-digit
    hour, a comma before the fraction, a zone hour of 24 or a zone minute
    of 60. *)
Definition parse_rfc3339 (s : string) : result string instant :=
  let r :=
    year ← parseUint 4 s 0 9999;
    s1 ← expect "-" year.2;
    month ← parseUint 2 s1 1 12;
    s2 ← expect "-" month.2;
    day ← parseUint 2 s2 1 (daysIn month.1 year.1);
    s3 ← expect "T" day.2;
    hour ← parseUint 2 s3 0 23;
    s4 ← expect ":" hour.2;
    min ← parseUint 2 s4 0 59;
    s5 ← expect ":" min.2;
    sec ← parseUint 2 s5 0 59;
    let '(ns, s6) := read_fraction_of_second sec.2 in
    offset ← read_zone s6;
    Some {| unixSec := (days_from_civil year.1 month.1 day.1 * 86400
                        + hour.1 * 3600 + min.1 * 60 + sec.1 - offset)%Z;
            nsec := ns;
            zoneOffset := offset |} in
  match r with
  | Some timestamp => Ok timestamp
  | None => Err ("parsing time " +:+ s +:+ ": not an RFC 3339 timestamp")
  end.

(** ** The environment *)

(** An [*http.Request] as [makeRequest] builds it. *)
Record request : Type := {
  Method : string;
  URL : string;
  Authorization : option string
}.

(** The environment in which the identity provider answers [token], the
    server answers by [server], and a map is ranged over in the order
    [order] puts its entries in.  Its [NewRequest] takes every URL, where
    [http.NewRequest] refuses one it cannot parse. *)
Definition reference : Foreign :=
  {| Authorizer := string; Request := request; Time := instant |}.

Definition environment (token : result string string)
    (server : request -> result string http_Response)
    (order : list (string * nat) -> list (string * nat))
    (order_perm : forall l, order l ≡ₚ l) : @Externals reference :=
  {| NewAuthorizerFromEnvironment := token : result string (@Authorizer reference);
     NewRequest := fun method url =>
       Ok {| Method := method; URL := url; Authorization := None |};
     Prepare := fun bearer req =>
       Ok {| Method := Method req; URL := URL req;
             Authorization := Some ("Bearer " +:+ bearer) |};
     Client_Do := server;
     Decode := json_decode;
     time_Parse_RFC3339 := parse_rfc3339;
     map_range := fun m => order (map_to_list m);
     map_range_perm := fun m => order_perm (map_to_list m) |}.

(** ** Sample cycles *)

(** A server that answers every request with the same status and body. *)
Definition answers (status : Z) (body : string) (req : request)
    : result string http_Response :=
  Ok {| StatusCode := status; Body := Ok body |}.

(** The environment with a working identity provider in which a map is
    ranged over in the order of [map_to_list], and the one in which it is
    ranged over the other way round. *)
Definition world (server : request -> result string http_Response)
    : @Externals reference :=
  environment (Ok "token") server id (fun l => Permutation_refl l).

Definition world_reversed (server : request -> result string http_Response)
    : @Externals reference :=
  environment (Ok "token") server reverse reverse_Permutation.

Definition storage_account : string :=
  "/subscriptions/0000/resourceGroups/rg/providers/Microsoft.Storage/storageAccounts/acct".

(** The plugin after a successful [Init]. *)
Definition monitor : @AzureMonitor reference :=
  {| ResourceId := storage_account; authorizer := Some ("token" : @Authorizer reference) |}.

(** One metric, one series, one datum. *)
Definition cpu_body : string :=
  quoted "{'value':[{'name':{'value':'Percentage CPU'},'timeseries':[{'data':[{'average':42.5,'timeStamp':'2024-01-01T00:00:00Z'}]}]}]}".

Definition cpu_response : AzureMonitorResponse :=
  {| Cost := 0%float; Interval := ""; Namespace := ""; ResourceRegion := "";
     Timespan := "";
     Values :=
       [{| DisplayDescription := ""; ErrorCode := ""; Id := "";
           Name := {| LocalizedValue := ""; Value := "Percentage CPU" |};
           TimeSeries :=
             [{| Data := [{| Average := 42.5%float;
                             TimeStamp := "2024-01-01T00:00:00Z" |}];
                 MetadataValues := [] |}];
           Type_ := ""; Unit := "" |}] |}.

(** Two metrics; the first has two series that both report midnight, and a
    datum whose timestamp is no date. *)
Definition mixed_body : string :=
  quoted "{'cost':0,'interval':'PT1M','value':[
    {'name':{'value':'Transactions','localizedValue':'Transactions'},'unit':'Count',
     'timeseries':[
       {'metadatavalues':[],'data':[{'timeStamp':'2024-01-01T00:00:00Z','average':1},
                                    {'timeStamp':'2024-01-01T00:01:00Z','average':2}]},
       {'metadatavalues':[],'data':[{'timeStamp':'2024-01-01T00:00:00Z','average':3},
                                    {'timeStamp':'not-a-date','average':4}]}]},
    {'name':{'value':'Ingress','localizedValue':'Ingress'},'unit':'Bytes',
     'timeseries':[
       {'metadatavalues':[],'data':[{'timeStamp':'2024-01-01T00:00:00Z','average':5}]}]}]}".

Definition mixed_response : AzureMonitorResponse :=
  {| Cost := 0%float; Interval := "PT1M"; Namespace := ""; ResourceRegion := "";
     Timespan := "";
     Values :=
       [{| DisplayDescription := ""; ErrorCode := ""; Id := "";
           Name := {| LocalizedValue := "Transactions"; Value := "Transactions" |};
           TimeSeries :=
             [{| Data := [{| Average := 1%float; TimeStamp := "2024-01-01T00:00:00Z" |};
                          {| Average := 2%float; TimeStamp := "2024-01-01T00:01:00Z" |}];
                 MetadataValues := [] |};
              {| Data := [{| Average := 3%float; TimeStamp := "2024-01-01T00:00:00Z" |};
                          {| Average := 4%float; TimeStamp := "not-a-date" |}];
                 MetadataValues := [] |}];
           Type_ := ""; Unit := "Count" |};
        {| DisplayDescription := ""; ErrorCode := ""; Id := "";
           Name := {| LocalizedValue := "Ingress"; Value := "Ingress" |};
           TimeSeries :=
             [{| Data := [{| Average := 5%float; TimeStamp := "2024-01-01T00:00:00Z" |}];
                 MetadataValues := [] |}];
           Type_ := ""; Unit := "Bytes" |}] |}.

Definition not_found_body : string := quoted "{'error':'not found'}".

(** 2024-01-01T00:00:00Z. *)
Definition midnight : @Time reference :=
  {| unixSec := 1704067200; nsec := 0; zoneOffset := 0 |}.

(** ** Reading a trace and a plugin *)

Section Reading.
Context `{F : Foreign}.

(** The requests handed to [client.Do], oldest first. *)
Definition sent (l : list event) : list Request :=
  omap (fun e => match e with ev_Do req => Some req | _ => None end) l.

(** [&AzureMonitor{}], the plugin the factory registered by [init] makes:
    no resource and a nil authorizer. *)
Definition AzureMonitor_zero : AzureMonitor :=
  {| ResourceId := ""; authorizer := None |}.

End Reading.

(** The URL [makeRequest] formats for a resource. *)
Definition metrics_url (resource : string) : string :=
  "https://management.azure.com/" +:+ resource
    +:+ "/providers/microsoft.insights/metrics?api-version=2018-01-01".

(** ** More sample cycles *)

(** The environment whose identity provider has no credentials. *)
Definition world_without_credentials : @Externals reference :=
  environment (Err "no credentials in the environment") (answers 200 cpu_body)
    id (fun l => Permutation_refl l).

(** One metric reporting the same instant under two spellings. *)
Definition same_instant_body : string :=
  quoted "{'value':[{'name':{'value':'Egress'},'timeseries':[{'data':[
    {'timeStamp':'2024-01-01T00:00:00Z','average':1},
    {'timeStamp':'2024-01-01T00:00:00+00:00','average':2}]}]}]}".

Definition same_instant_response : AzureMonitorResponse :=
  {| Cost := 0%float; Interval := ""; Namespace := ""; ResourceRegion := "";
     Timespan := "";
     Values :=
       [{| DisplayDescription := ""; ErrorCode := ""; Id := "";
           Name := {| LocalizedValue := ""; Value := "Egress" |};
           TimeSeries :=
             [{| Data := [{| Average := 1%float; TimeStamp := "2024-01-01T00:00:00Z" |};
                          {| Average := 2%float;
                             TimeStamp := "2024-01-01T00:00:00+00:00" |}];
                 MetadataValues := [] |}];
           Type_ := ""; Unit := "" |}] |}.

(** Timestamps in a format that is not RFC 3339. *)
Definition undated_body : string :=
  quoted "{'value':[{'name':{'value':'Egress'},'timeseries':[{'data':[
    {'timeStamp':'01/01/2024 00:00','average':1},
    {'timeStamp':'1704067200','average':2}]}]}]}".

Definition undated_response : AzureMonitorResponse :=
  {| Cost := 0%float; Interval := ""; Namespace := ""; ResourceRegion := "";
     Timespan := "";
     Values :=
       [{| DisplayDescription := ""; ErrorCode := ""; Id := "";
           Name := {| LocalizedValue := ""; Value := "Egress" |};
           TimeSeries :=
             [{| Data := [{| Average := 1%float; TimeStamp := "01/01/2024 00:00" |};
                          {| Average := 2%float; TimeStamp := "1704067200" |}];
                 MetadataValues := [] |}];
           Type_ := ""; Unit := "" |}] |}.

(** The second sample with its two metrics in the other order. *)
Definition mixed_response_swapped : AzureMonitorResponse :=
  {| Cost := Cost mixed_response; Interval := Interval mixed_response;
     Namespace := Namespace mixed_response;
     ResourceRegion := ResourceRegion mixed_response;
     Timespan := Timespan mixed_response;
     Values := reverse (Values mixed_response) |}.

(** The data of the second sample in one series per metric, with a
    dimension, another unit and another cost. *)
Definition mixed_response_flat : AzureMonitorResponse :=
  {| Cost := 7%float; Interval := "PT5M"; Namespace := "ns"; ResourceRegion := "";
     Timespan := "";
     Values :=
       [{| DisplayDescription := ""; ErrorCode := ""; Id := "";
           Name := {| LocalizedValue := "Transaktionen"; Value := "Transactions" |};
           TimeSeries :=
             [{| Data := [{| Average := 1%float; TimeStamp := "2024-01-01T00:00:00Z" |};
                          {| Average := 2%float; TimeStamp := "2024-01-01T00:01:00Z" |};
                          {| Average := 3%float; TimeStamp := "2024-01-01T00:00:00Z" |};
                          {| Average := 4%float; TimeStamp := "not-a-date" |}];
                 MetadataValues := [{[ "name" := any_string "apiname" ]}] |}];
           Type_ := ""; Unit := "CountPerSecond" |};
        {| DisplayDescription := ""; ErrorCode := ""; Id := "";
           Name := {| LocalizedValue := "Ingress"; Value := "Ingress" |};
           TimeSeries :=
             [{| Data := []; MetadataValues := [] |};
              {| Data := [{| Average := 5%float; TimeStamp := "2024-01-01T00:00:00Z" |}];
                 MetadataValues := [] |}];
           Type_ := ""; Unit := "Bytes" |}] |}.

(** ** Classifying a body by the validity of its JSON *)

(** Whether a text is a JSON text in the sense of RFC 8259: one value with
    nothing but white space before and after it. *)
Definition is_json (body : string) : bool :=
  match parse_value (S (String.length body)) body with
  | Some (_, rest) =>
      match skip_space rest with
      | EmptyString => true
      | _ => false
      end
  | None => false
  end.

(** The decode clauses as the specification words them, for a response
    whose body was read as [body] and whose status is in the 2xx range: a
    body that is not valid JSON is returned as a decode error, any other
    body as a decoded response with no error. *)
Definition decided_by_JSON_validity `{X : Externals} (resp : http_Response)
    (body : string) : Prop :=
  (is_json body = false ->
   exists e, ending (parseResponse resp) =
               Returns (AzureMonitorResponse_zero, Some (call_error json_Decode e))) /\
  (is_json body = true ->
   exists response, ending (parseResponse resp) = Returns (response, None)).

(** A JSON object followed by bytes that are no JSON, and a JSON text whose
    [value] is a number where the schema has an array. *)
Definition trailing_body : string := quoted "{'interval':'PT1M'} trailing garbage".

Definition mistyped_body : string := quoted "{'value':17}".

(** * Properties *)

(** ** The grouping pass never panics and computes [put] on the view *)

Lemma view_lookup (b : buckets) (ts : string) :
  view b !! ts = fieldsByTimestamp b !! ts ≫= deref b.
Proof. unfold view. apply lookup_omap. Qed.

Lemma wf_empty : wf buckets_empty.
Proof. split; simpl; intros *; rewrite lookup_empty; discriminate. Qed.

Lemma view_empty : view buckets_empty = ∅.
Proof. unfold view. simpl. apply omap_empty. Qed.

Lemma store_datum_put (name : string) (b : buckets)
    (d : AzureMonitorResponseTimeSeriesDatum) :
  wf b ->
  exists b', store_datum name b d = Some b' /\ wf b' /\ view b' = put (view b) (name, d).
Proof.
  intros [Hlt Hinj]. unfold store_datum.
  destruct (fieldsByTimestamp b !! TimeStamp d) as [slot|] eqn:Hts.
  - rewrite Hts.
    destruct (lookup_lt_is_Some_2 (inner b) slot (Hlt _ _ Hts)) as [f Hf].
    rewrite Hf. eexists; split; [reflexivity|]. split.
    + split; simpl; [|exact Hinj].
      intros ts s Hs. rewrite length_insert. eauto.
    + apply map_eq; intros ts. rewrite view_lookup. unfold put, deref; simpl.
      destruct (decide (TimeStamp d = ts)) as [<-|Hne].
      * rewrite Hts, lookup_insert_eq; simpl.
        rewrite list_lookup_insert_eq by eauto.
        rewrite view_lookup, Hts; simpl. unfold deref. rewrite Hf. reflexivity.
      * rewrite lookup_insert_ne by done. rewrite view_lookup.
        destruct (fieldsByTimestamp b !! ts) as [s|] eqn:Hs; simpl; [|done].
        unfold deref. rewrite list_lookup_insert_ne; [done|].
        intros <-. apply Hne. eauto.
  - simpl. rewrite lookup_insert_eq.
    rewrite lookup_app_r, Nat.sub_diag by lia. simpl.
    eexists; split; [reflexivity|]. split.
    + split; simpl.
      * intros ts s. rewrite length_insert, length_app; simpl.
        destruct (decide (TimeStamp d = ts)) as [<-|Hne].
        -- rewrite lookup_insert_eq. intros [= <-]. lia.
        -- rewrite lookup_insert_ne by done. intros Hs%Hlt. lia.
      * intros ts1 ts2 s.
        destruct (decide (TimeStamp d = ts1)) as [<-|Hne1];
          destruct (decide (TimeStamp d = ts2)) as [<-|Hne2]; try done.
        -- rewrite lookup_insert_eq, lookup_insert_ne by done.
           intros [= <-] Hs%Hlt. lia.
        -- rewrite lookup_insert_eq, lookup_insert_ne by done.
           intros Hs%Hlt [= <-]. lia.
        -- rewrite !lookup_insert_ne by done. apply Hinj.
    + apply map_eq; intros ts. rewrite view_lookup. unfold put, deref; simpl.
      destruct (decide (TimeStamp d = ts)) as [<-|Hne].
      * rewrite !lookup_insert_eq; simpl.
        rewrite list_lookup_insert_eq by (rewrite length_app; simpl; lia).
        rewrite view_lookup, Hts. reflexivity.
      * rewrite !lookup_insert_ne by done. rewrite view_lookup.
        destruct (fieldsByTimestamp b !! ts) as [s|] eqn:Hs; simpl; [|done].
        unfold deref. pose proof (Hlt _ _ Hs).
        rewrite list_lookup_insert_ne by lia.
        rewrite lookup_app_l by done. reflexivity.
Qed.

(** A slice loop whose body computes [step] over the points of each element
    computes [step] over the points of the whole slice. *)
Lemma range_slice_points {A : Type} (body : buckets -> A -> option buckets)
    (flat : A -> list point) :
  (forall b x, wf b ->
     exists b', body b x = Some b' /\ wf b' /\ view b' = foldl put (view b) (flat x)) ->
  forall l b, wf b ->
    exists b', range_slice body l b = Some b' /\ wf b' /\
               view b' = foldl put (view b) (l ≫= flat).
Proof.
  intros Hbody l. induction l as [|x l IH]; intros b Hb; simpl.
  - eauto.
  - destruct (Hbody b x Hb) as (b1 & -> & Hb1 & Hv1).
    destruct (IH b1 Hb1) as (b2 & -> & Hb2 & Hv2).
    exists b2. split; [done|]. split; [done|].
    rewrite foldl_app, <- Hv1. exact Hv2.
Qed.

Lemma store_series_put (name : string) (b : buckets)
    (ts : AzureMonitorResponseTimeSeries) :
  wf b ->
  exists b', store_series name b ts = Some b' /\ wf b' /\
             view b' = foldl put (view b) (points_of_series name ts).
Proof.
  apply (range_slice_points (store_datum name) (fun d => [(name, d)])).
  intros b0 d Hb0. simpl. by apply store_datum_put.
Qed.

Lemma store_value_put (b : buckets) (value : AzureMonitorResponseValue) :
  wf b ->
  exists b', store_value b value = Some b' /\ wf b' /\
             view b' = foldl put (view b) (points_of_value value).
Proof.
  apply (range_slice_points (store_series (Value (Name value)))
           (points_of_series (Value (Name value)))).
  intros b0 ts Hb0. by apply store_series_put.
Qed.

Lemma bucketize_put (r : AzureMonitorResponse) :
  exists b, bucketize r = Some b /\ wf b /\ view b = foldl put ∅ (points r).
Proof.
  destruct (range_slice_points store_value points_of_value
              (fun b v => store_value_put b v) (Values r) buckets_empty wf_empty)
    as (b & Hb & Hwf & Hv).
  exists b. rewrite view_empty in Hv. done.
Qed.

(** ** What the denoted map holds after the traversal *)

Lemma merged_snoc (ps : list point) (p : point) (ts : string) :
  merged (ps ++ [p]) ts =
  if decide (TimeStamp p.2 = ts) then <[p.1 := Average p.2]> (merged ps ts)
  else merged ps ts.
Proof.
  unfold merged. rewrite filter_app, foldl_app.
  rewrite filter_cons, filter_nil.
  destruct (decide (TimeStamp p.2 = ts)); reflexivity.
Qed.

Lemma merged_absent (ps : list point) (ts : string) :
  ts ∉ (fun p : point => TimeStamp p.2) <$> ps -> merged ps ts = ∅.
Proof.
  intros Hnot. unfold merged.
  induction ps as [|p ps IH]; [done|].
  rewrite fmap_cons, not_elem_of_cons in Hnot. destruct Hnot as [Hne Hnot].
  rewrite filter_cons, decide_False by (intros Heq; by apply Hne).
  by apply IH.
Qed.

Lemma foldl_put_lookup (ps : list point) (ts : string) :
  foldl put ∅ ps !! ts =
  if decide (ts ∈ (fun p : point => TimeStamp p.2) <$> ps) then Some (merged ps ts)
  else None.
Proof.
  induction ps as [|p ps IH] using rev_ind.
  - simpl. by rewrite lookup_empty.
  - rewrite foldl_app; simpl. unfold put at 1.
    rewrite fmap_app, merged_snoc; simpl.
    destruct (decide (TimeStamp p.2 = ts)) as [Heq|Hne].
    + rewrite Heq, lookup_insert_eq.
      rewrite decide_True
        by (rewrite <- Heq; apply elem_of_app; right; by apply list_elem_of_singleton).
      rewrite IH. case_decide as Hin; simpl; [done|].
      by rewrite merged_absent.
    + rewrite lookup_insert_ne by done. rewrite IH.
      destruct (decide (ts ∈ (fun p : point => TimeStamp p.2) <$> ps)) as [Hin|Hin].
      * rewrite decide_True by (apply elem_of_app; by left). done.
      * rewrite decide_False; [done|].
        intros [?|?%list_elem_of_singleton]%elem_of_app; done.
Qed.

Lemma merged_lookup (ps : list point) (ts name : string) :
  merged ps ts !! name = last_written ps ts name.
Proof.
  unfold last_written.
  induction ps as [|p ps IH] using rev_ind.
  - unfold merged; simpl. by rewrite lookup_empty.
  - rewrite merged_snoc, filter_app, filter_cons, filter_nil, last_app.
    destruct (decide (TimeStamp p.2 = ts)) as [Heq|Hne].
    + destruct (decide (p.1 = name)) as [Hn|Hn].
      * rewrite decide_True by done. simpl. by rewrite Hn, lookup_insert_eq.
      * rewrite decide_False by tauto. simpl.
        by rewrite lookup_insert_ne.
    + rewrite decide_False by tauto. simpl. exact IH.
Qed.

Lemma last_written_Some (ps : list point) (ts name : string) (x : float) :
  last_written ps ts name = Some x ->
  exists d, (name, d) ∈ ps /\ TimeStamp d = ts /\ Average d = x.
Proof.
  unfold last_written. intros Hl.
  apply fmap_Some in Hl as ([n d] & Hlast & ->).
  apply last_Some_elem_of, list_elem_of_filter in Hlast as [[Hts Hn] Hin].
  simpl in *. subst n. eauto.
Qed.

Lemma last_written_is_Some (ps : list point) (ts name : string)
    (d : AzureMonitorResponseTimeSeriesDatum) :
  (name, d) ∈ ps -> TimeStamp d = ts -> is_Some (last_written ps ts name).
Proof.
  intros Hin Hts. unfold last_written. apply fmap_is_Some.
  destruct (last (filter (fun p : point => TimeStamp p.2 = ts /\ p.1 = name) ps))
    eqn:Hl; [eauto|].
  apply last_None in Hl.
  assert (Hd : (name, d) ∈ filter (fun p : point => TimeStamp p.2 = ts /\ p.1 = name) ps)
    by (apply list_elem_of_filter; done).
  rewrite Hl in Hd. by apply not_elem_of_nil in Hd.
Qed.

(** A point of the traversal, traced back into the response. *)
Lemma elem_of_points (r : AzureMonitorResponse) (name : string)
    (d : AzureMonitorResponseTimeSeriesDatum) :
  (name, d) ∈ points r <->
  exists value ts, value ∈ Values r /\ ts ∈ TimeSeries value /\ d ∈ Data ts /\
                   name = Value (Name value).
Proof.
  unfold points, points_of_value, points_of_series. split.
  - intros (value & Hp & Hv)%list_elem_of_bind.
    apply list_elem_of_bind in Hp as (ts & Hp & Hts).
    apply list_elem_of_bind in Hp as (d' & Hp & Hd).
    apply list_elem_of_singleton in Hp. injection Hp as -> ->. eauto 10.
  - intros (value & ts & Hv & Hts & Hd & ->).
    apply list_elem_of_bind. exists value. split; [|done].
    apply list_elem_of_bind. exists ts. split; [|done].
    apply list_elem_of_bind. exists d. split; [|done].
    by apply list_elem_of_singleton.
Qed.

Lemma elem_of_timestamps (r : AzureMonitorResponse) (s : string) :
  s ∈ timestamps r <->
  exists value ts d, value ∈ Values r /\ ts ∈ TimeSeries value /\ d ∈ Data ts /\
                     TimeStamp d = s.
Proof.
  unfold timestamps. rewrite list_elem_of_fmap. split.
  - intros ([name d] & -> & Hp). apply elem_of_points in Hp as (v & ts & ? & ? & ? & _).
    simpl. eauto 10.
  - intros (v & ts & d & Hv & Hts & Hd & <-).
    exists (Value (Name v), d). split; [done|].
    apply elem_of_points. eauto 10.
Qed.

(** ** What a poll cycle does *)

Section Cycle.
Context `{F : Foreign} `{X : !Externals}.

Lemma added_app (l1 l2 : list event) : added (l1 ++ l2) = added l1 ++ added l2.
Proof. apply omap_app. Qed.

Lemma added_AddFields (ms : list Metric) : added (ev_AddFields <$> ms) = ms.
Proof. induction ms as [|m ms IH]; [done|]. unfold added in *. cbn. by f_equal. Qed.

(** [parseResponse] always returns and never touches the accumulator. *)
Lemma parseResponse_events (resp : http_Response) :
  exists l p, parseResponse resp = (l, Returns p) /\ added l = [].
Proof.
  unfold parseResponse.
  destruct (Body resp) as [body|err]; simpl; [|eauto].
  destruct ((StatusCode resp <? 200)%Z || (StatusCode resp >? 299)%Z); simpl; [eauto|].
  destruct (Decode body); simpl; eauto.
Qed.

(** [makeRequest] never touches the accumulator. *)
Lemma makeRequest_added (a : AzureMonitor) : added (events (makeRequest a)) = [].
Proof.
  unfold makeRequest.
  destruct (NewRequest _ _) as [req|]; [|done].
  destruct (authorizer a) as [au|]; [|done]. simpl.
  destruct (Prepare au req) as [req'|]; [|done]. simpl.
  destruct (Client_Do req'); done.
Qed.

(** The second loop emits [metric_of] of each entry it visits. *)
Lemma emit_all_metrics (b : buckets) (tags : gmap string string)
    (entries : list (string * nat)) :
  (forall entry, entry ∈ entries -> is_Some (deref b entry.2)) ->
  emit_all b tags entries = (ev_AddFields <$> omap (metric_of b tags) entries, Returns tt).
Proof.
  induction entries as [|[ts slot] entries IH]; intros Hall; [done|].
  simpl. rewrite IH by (intros e He; apply Hall; by right).
  destruct (Hall (ts, slot)) as [f Hf]; [by left|]. simpl in Hf.
  unfold emit_entry, metric_of, parsed. simpl.
  destruct (time_Parse_RFC3339 ts) as [timestamp|]; simpl; [|done].
  rewrite Hf. done.
Qed.

(** A cycle whose request and parse succeed: the grouping pass returns, and
    the cycle emits the entries of [fieldsByTimestamp] in range order. *)
Lemma Gather_success (a : AzureMonitor) (resp : http_Response)
    (r : AzureMonitorResponse) :
  ending (makeRequest a) = Returns (Ok resp) ->
  ending (parseResponse resp) = Returns (r, None) ->
  exists b, bucketize r = Some b /\ wf b /\ view b = foldl put ∅ (points r) /\
    ending (Gather a) = Returns None /\
    added (events (Gather a)) =
      omap (metric_of b (<["resource_id" := ResourceId a]> ∅))
           (map_range (fieldsByTimestamp b)).
Proof.
  intros Hreq Hparse.
  destruct (bucketize_put r) as (b & Hb & Hwf & Hview).
  exists b. split; [done|]. split; [done|]. split; [done|].
  pose proof (makeRequest_added a) as Hnone.
  destruct (makeRequest a) as [l1 o1] eqn:Hm. simpl in Hreq, Hnone. subst o1.
  destruct (parseResponse_events resp) as (l2 & p & Hp & Hnone2).
  rewrite Hp in Hparse. simpl in Hparse. injection Hparse as ->.
  assert (Hentries : forall entry, entry ∈ map_range (fieldsByTimestamp b) ->
                                   is_Some (deref b entry.2)).
  { intros [ts slot] Hin. rewrite map_range_perm in Hin.
    apply elem_of_map_to_list in Hin. simpl.
    apply lookup_lt_is_Some_2. destruct Hwf as [Hlt _]. eauto. }
  unfold Gather. rewrite Hm. simpl. rewrite Hp. simpl. rewrite Hb.
  rewrite (emit_all_metrics _ _ _ Hentries). simpl. split; [done|].
  unfold events; simpl. rewrite app_nil_r.
  rewrite !added_app, Hnone, Hnone2, added_AddFields. done.
Qed.

End Cycle.

(** ** The sample cycles, run

    The reference decoder fills the sample responses from the sample bodies. *)
Example cpu_body_decodes : json_decode cpu_body = Ok cpu_response.
Proof. vm_compute. reflexivity. Qed.

Example mixed_body_decodes : json_decode mixed_body = Ok mixed_response.
Proof. vm_compute. reflexivity. Qed.

Example not_found_body_decodes : json_decode not_found_body = Ok AzureMonitorResponse_zero.
Proof. vm_compute. reflexivity. Qed.

(** The buckets of the second sample: midnight has both metrics, with the
    later of the two values of [Transactions]. *)
Example mixed_buckets :
  view <$> bucketize mixed_response =
  Some (<[ "2024-01-01T00:00:00Z" :=
             <[ "Transactions" := 3%float ]> {[ "Ingress" := 5%float ]} ]>
        (<[ "2024-01-01T00:01:00Z" := {[ "Transactions" := 2%float ]} ]>
         {[ "not-a-date" := {[ "Transactions" := 4%float ]} ]})).
Proof. vm_compute. reflexivity. Qed.

Example not_a_date_rejected :
  parse_rfc3339 "not-a-date" = Err "parsing time not-a-date: not an RFC 3339 timestamp".
Proof. vm_compute. reflexivity. Qed.

(** ** The FieldSets of a successful cycle *)

Lemma parsed_Some `{X : Externals} (ts : string) (timestamp : Time) :
  parsed ts = Some timestamp <-> time_Parse_RFC3339 ts = Ok timestamp.
Proof.
  unfold parsed. destruct (time_Parse_RFC3339 ts); split; congruence.
Qed.

Lemma omap_fst_ext {A B C : Type} (f : A * B -> option C) (g : A -> option C)
    (l : list (A * B)) :
  (forall e, e ∈ l -> f e = g e.1) -> omap f l = omap g l.*1.
Proof.
  induction l as [|e l IH]; intros Hall; [done|].
  cbn. rewrite <- (Hall e) by (by left).
  rewrite IH by (intros e' He'; apply Hall; by right). done.
Qed.

(** The timestamp strings that have a bucket are those of the response. *)
Lemma bucket_keys (r : AzureMonitorResponse) (b : buckets) (ts : string) :
  wf b -> view b = foldl put ∅ (points r) ->
  (is_Some (fieldsByTimestamp b !! ts) <-> ts ∈ timestamps r) /\
  (forall slot, fieldsByTimestamp b !! ts = Some slot ->
     deref b slot = Some (merged (points r) ts)).
Proof.
  intros [Hlt _] Hview.
  pose proof (view_lookup b ts) as Hl.
  rewrite Hview, foldl_put_lookup in Hl. fold (timestamps r) in Hl.
  split.
  - split.
    + intros [slot Hslot]. rewrite Hslot in Hl. simpl in Hl.
      destruct (lookup_lt_is_Some_2 (inner b) slot (Hlt _ _ Hslot)) as [f Hf].
      unfold deref in Hl. rewrite Hf in Hl. by case_decide.
    + intros Hin. rewrite decide_True in Hl by done.
      destruct (fieldsByTimestamp b !! ts); [eauto|done].
  - intros slot Hslot. rewrite Hslot in Hl. simpl in Hl.
    destruct (lookup_lt_is_Some_2 (inner b) slot (Hlt _ _ Hslot)) as [f Hf].
    unfold deref in *. rewrite Hf in Hl. case_decide; congruence.
Qed.

(** A cycle whose request and parse succeed returns no error and emits, for
    the timestamp strings of the response taken once each in some order, the
    FieldSet of every string that parses. *)
Lemma Gather_FieldSets `{X : Externals} (a : AzureMonitor) (resp : http_Response)
    (r : AzureMonitorResponse) :
  ending (makeRequest a) = Returns (Ok resp) ->
  ending (parseResponse resp) = Returns (r, None) ->
  exists keys : list string,
    NoDup keys /\ (forall ts, ts ∈ keys <-> ts ∈ timestamps r) /\
    ending (Gather a) = Returns None /\
    added (events (Gather a)) = omap (fun ts => FieldSet a r ts <$> parsed ts) keys.
Proof.
  intros Hreq Hparse.
  destruct (Gather_success a resp r Hreq Hparse) as (b & Hb & Hwf & Hview & Hend & Hadd).
  exists (map_range (fieldsByTimestamp b)).*1.
  assert (Hentry : forall ts slot, (ts, slot) ∈ map_range (fieldsByTimestamp b) <->
                                   fieldsByTimestamp b !! ts = Some slot).
  { intros ts slot. rewrite map_range_perm. apply elem_of_map_to_list. }
  split; [|split; [|split; [done|]]].
  - rewrite map_range_perm. apply NoDup_fst_map_to_list.
  - intros ts. rewrite <- (proj1 (bucket_keys r b ts Hwf Hview)).
    rewrite list_elem_of_fmap. split.
    + intros ([ts' slot] & -> & Hin). apply Hentry in Hin. eauto.
    + intros [slot Hslot]. exists (ts, slot). split; [done|]. by apply Hentry.
  - rewrite Hadd. apply omap_fst_ext. intros [ts slot] Hin. simpl.
    apply Hentry in Hin.
    unfold metric_of, FieldSet. simpl.
    rewrite (proj2 (bucket_keys r b ts Hwf Hview) slot Hin).
    rewrite insert_empty. destruct (parsed ts); done.
Qed.

(** Pairing each element with what [g] finds for it. *)
Lemma paired_fst_sublist {A B : Type} (g : A -> option B) (l : list A) :
  (omap (fun x => (x,.) <$> g x) l).*1 `sublist_of` l.
Proof.
  induction l as [|x l IH]; [done|]. cbn.
  destruct (g x); cbn; [by apply sublist_skip|by apply sublist_cons].
Qed.

Lemma paired_elem_of {A B : Type} (g : A -> option B) (l : list A) (x : A) (y : B) :
  (x, y) ∈ omap (fun x => (x,.) <$> g x) l <-> x ∈ l /\ g x = Some y.
Proof.
  rewrite list_elem_of_omap. split.
  - intros (x' & Hin & Hg). destruct (g x') eqn:Hx'; simplify_eq/=. done.
  - intros [Hin Hg]. exists x. rewrite Hg. done.
Qed.

Lemma paired_fmap {A B C : Type} (g : A -> option B) (h : A -> B -> C) (l : list A) :
  (fun p => h p.1 p.2) <$> omap (fun x => (x,.) <$> g x) l = omap (fun x => h x <$> g x) l.
Proof.
  induction l as [|x l IH]; [done|]. cbn.
  destruct (g x); cbn; by rewrite IH.
Qed.

(** ** The claims *)

(** C1. In a cycle whose request and parse succeed, the grouping pass hands
    the accumulator exactly one FieldSet per distinct timestamp string of the
    response that parses as RFC 3339: the emitted metrics are the FieldSets
    of a duplicate-free list of such strings that holds every one of them,
    and the FieldSet of a string has a field for every metric that reported
    a datum with that string. *)
Theorem Gather_one_FieldSet_per_timestamp `{X : Externals} (a : AzureMonitor)
    (resp : http_Response) (r : AzureMonitorResponse) :
  ending (makeRequest a) = Returns (Ok resp) ->
  ending (parseResponse resp) = Returns (r, None) ->
  exists stamps : list (string * Time),
    NoDup stamps.*1 /\
    (forall ts timestamp,
       (ts, timestamp) ∈ stamps <->
       ts ∈ timestamps r /\ time_Parse_RFC3339 ts = Ok timestamp) /\
    added (events (Gather a)) = (fun st => FieldSet a r st.1 st.2) <$> stamps /\
    (forall value series d,
       value ∈ Values r -> series ∈ TimeSeries value -> d ∈ Data series ->
       is_Some (merged (points r) (TimeStamp d) !! Value (Name value))).
Proof.
  intros Hreq Hparse.
  destruct (Gather_FieldSets a resp r Hreq Hparse) as (keys & Hnodup & Hkeys & _ & Hadd).
  exists (omap (fun ts => (ts,.) <$> parsed ts) keys).
  split; [|split; [|split]].
  - eapply sublist_NoDup; [exact Hnodup|apply (paired_fst_sublist parsed)].
  - intros ts timestamp. rewrite paired_elem_of, Hkeys, parsed_Some. done.
  - rewrite Hadd. symmetry. apply (paired_fmap parsed (FieldSet a r)).
  - intros value series d Hv Hs Hd. rewrite merged_lookup.
    apply (last_written_is_Some _ _ _ d); [|done].
    apply elem_of_points. eauto 10.
Qed.

Lemma Gather_one_FieldSet_per_timestamp_witness :
  exists stamps : list (string * instant),
    NoDup stamps.*1 /\
    added (events (@Gather reference (world (answers 200 mixed_body)) monitor)) =
      (fun st => FieldSet monitor mixed_response st.1 st.2) <$> stamps.
Proof.
  destruct (@Gather_one_FieldSet_per_timestamp reference
              (world (answers 200 mixed_body)) monitor
              {| StatusCode := 200; Body := Ok mixed_body |} mixed_response)
    as (stamps & Hnodup & _ & Hadd & _).
  - vm_compute. reflexivity.
  - vm_compute. reflexivity.
  - exists stamps. split; assumption.
Defined.

(** C2, as amended.  What [parseResponse] does.  When reading the body
    fails, it returns the read error.  Otherwise, for a status below 200 or
    above 299, it returns an [AzureMonitorError] whose message holds the
    status code in decimal and the body as it came; the decoder has not been
    run, whatever it would make of the body.  Otherwise it runs the decoder
    once on the body and goes by its verdict, not by whether the body is
    valid JSON: it returns the decoder's error when there is one, and the
    decoded response with no error when there is none. *)
Theorem parseResponse_classification `{X : Externals} (resp : http_Response) :
  (forall e, Body resp = Err e ->
     parseResponse resp =
       ([ev_ReadAll; ev_Close],
        Returns (AzureMonitorResponse_zero, Some (call_error io_ReadAll e)))) /\
  (forall body, Body resp = Ok body ->
     (StatusCode resp < 200 \/ 299 < StatusCode resp)%Z ->
     parseResponse resp =
       ([ev_ReadAll; ev_Close],
        Returns (AzureMonitorResponse_zero,
                 Some (AzureMonitorError
                         ("Azure monitor request returned error. Status "
                            +:+ fmt_int (StatusCode resp) +:+ ":" +:+ LF +:+ body))))) /\
  (forall body e, Body resp = Ok body ->
     (200 <= StatusCode resp <= 299)%Z -> Decode body = Err e ->
     parseResponse resp =
       ([ev_ReadAll; ev_Decode body; ev_Close],
        Returns (AzureMonitorResponse_zero, Some (call_error json_Decode e)))) /\
  (forall body response, Body resp = Ok body ->
     (200 <= StatusCode resp <= 299)%Z -> Decode body = Ok response ->
     parseResponse resp =
       ([ev_ReadAll; ev_Decode body; ev_Close], Returns (response, None))).
Proof.
  unfold parseResponse. repeat split.
  - intros e ->. reflexivity.
  - intros body -> Hout. simpl.
    replace ((StatusCode resp <? 200)%Z || (StatusCode resp >? 299)%Z) with true; [done|].
    symmetry. apply orb_true_iff. lia.
  - intros body e -> Hin Hd. simpl.
    replace ((StatusCode resp <? 200)%Z || (StatusCode resp >? 299)%Z) with false
      by (symmetry; apply orb_false_iff; lia).
    simpl. rewrite Hd. reflexivity.
  - intros body response -> Hin Hd. simpl.
    replace ((StatusCode resp <? 200)%Z || (StatusCode resp >? 299)%Z) with false
      by (symmetry; apply orb_false_iff; lia).
    simpl. rewrite Hd. reflexivity.
Qed.

(** A 404 whose body the reference decoder would accept is still the provider
    error, with the status and the body in its message, and the decoder is
    not run. *)
Example parseResponse_not_found :
  @parseResponse reference (world (answers 404 not_found_body))
     {| StatusCode := 404; Body := Ok not_found_body |} =
  ([ev_ReadAll; ev_Close],
   Returns (AzureMonitorResponse_zero,
            Some (AzureMonitorError
                    ("Azure monitor request returned error. Status 404:" +:+ LF
                       +:+ quoted "{'error':'not found'}")))).
Proof. vm_compute. reflexivity. Qed.

(** The verdict of the decoder is not the validity of the body as JSON.  A
    2xx body that starts with a JSON object and goes on with bytes that are
    no JSON is decoded without error, the decoder reading one value and not
    looking further; and a 2xx body that is valid JSON but has a number
    where the schema has an array is a decode error. *)
Example trailing_body_accepted :
  is_json trailing_body = false /\
  ending (@parseResponse reference (world (answers 200 trailing_body))
            {| StatusCode := 200; Body := Ok trailing_body |}) =
    Returns ({| Cost := 0%float; Interval := "PT1M"; Namespace := "";
                ResourceRegion := ""; Timespan := ""; Values := [] |}, None).
Proof. split; vm_compute; reflexivity. Qed.

Example mistyped_body_rejected :
  is_json mistyped_body = true /\
  ending (@parseResponse reference (world (answers 200 mistyped_body))
            {| StatusCode := 200; Body := Ok mistyped_body |}) =
    Returns (AzureMonitorResponse_zero,
             Some (call_error json_Decode
                     "json: cannot unmarshal into Go value of slice type")).
Proof. split; vm_compute; reflexivity. Qed.

(** C2, as first worded, fails both ways: neither of the two bodies is
    classified by the validity of its JSON. *)
Lemma parseResponse_not_decided_by_JSON_validity :
  ~ @decided_by_JSON_validity reference (world (answers 200 trailing_body))
      {| StatusCode := 200; Body := Ok trailing_body |} trailing_body /\
  ~ @decided_by_JSON_validity reference (world (answers 200 mistyped_body))
      {| StatusCode := 200; Body := Ok mistyped_body |} mistyped_body.
Proof.
  split.
  - intros [Hinvalid _]. destruct Hinvalid as [e He]; [vm_compute; reflexivity|].
    vm_compute in He. discriminate.
  - intros [_ Hvalid]. destruct Hvalid as [response Hr]; [vm_compute; reflexivity|].
    vm_compute in Hr. discriminate.
Qed.

Lemma paired_length {A B C : Type} (g : A -> option B) (h : A -> B -> C) (l : list A) :
  length (omap (fun x => h x <$> g x) l) = length (filter (fun x => is_Some (g x)) l).
Proof.
  induction l as [|x l IH]; [done|]. rewrite filter_cons. cbn [omap list_omap].
  destruct (g x) as [y|]; cbn [fmap option_fmap option_map].
  - rewrite decide_True by eauto. cbn [length]. by rewrite IH.
  - rewrite decide_False by (by intros [? ?]). exact IH.
Qed.

(** C3. In a cycle whose request and parse succeed, [Gather] returns no
    error; the FieldSet of every timestamp string of the response that
    parses is emitted; nothing else is emitted, so the FieldSet of a string
    that does not parse is dropped; and as many metrics are emitted as the
    response has distinct timestamp strings that parse. *)
Theorem Gather_drops_unparsable_timestamps `{X : Externals} (a : AzureMonitor)
    (resp : http_Response) (r : AzureMonitorResponse) :
  ending (makeRequest a) = Returns (Ok resp) ->
  ending (parseResponse resp) = Returns (r, None) ->
  ending (Gather a) = Returns None /\
  (forall ts timestamp,
     ts ∈ timestamps r -> time_Parse_RFC3339 ts = Ok timestamp ->
     FieldSet a r ts timestamp ∈ added (events (Gather a))) /\
  (forall m, m ∈ added (events (Gather a)) ->
     exists ts timestamp,
       ts ∈ timestamps r /\ time_Parse_RFC3339 ts = Ok timestamp /\
       m = FieldSet a r ts timestamp) /\
  length (added (events (Gather a))) =
    length (filter (fun ts => is_Some (parsed ts)) (remove_dups (timestamps r))).
Proof.
  intros Hreq Hparse.
  destruct (Gather_FieldSets a resp r Hreq Hparse) as (keys & Hnodup & Hkeys & Hend & Hadd).
  split; [done|]. rewrite Hadd. split; [|split].
  - intros ts timestamp Hin Hok. apply list_elem_of_omap. exists ts.
    split; [by apply Hkeys|]. apply parsed_Some in Hok. by rewrite Hok.
  - intros m (ts & Hin & Hm)%list_elem_of_omap.
    destruct (parsed ts) as [timestamp|] eqn:Hp; [|done].
    exists ts, timestamp. split; [by apply Hkeys|]. split; [by apply parsed_Some|].
    simpl in Hm. congruence.
  - rewrite (paired_length parsed (FieldSet a r)).
    apply Permutation_length. apply filter_Permutation.
    apply NoDup_Permutation; [done|apply NoDup_remove_dups|].
    intros ts. rewrite Hkeys. symmetry. apply elem_of_remove_dups.
Qed.

Lemma Gather_drops_unparsable_timestamps_witness :
  ending (@Gather reference (world (answers 200 mixed_body)) monitor) = Returns None /\
  length (added (events (@Gather reference (world (answers 200 mixed_body)) monitor))) = 2.
Proof.
  destruct (@Gather_drops_unparsable_timestamps reference
              (world (answers 200 mixed_body)) monitor
              {| StatusCode := 200; Body := Ok mixed_body |} mixed_response)
    as (Hend & _ & _ & Hlen).
  - vm_compute. reflexivity.
  - vm_compute. reflexivity.
  - split; [exact Hend|]. rewrite Hlen. vm_compute. reflexivity.
Defined.

(** The grouping pass returns, and its buckets are the merged fields of the
    timestamp strings of the response. *)
Lemma bucketize_view (r : AzureMonitorResponse) :
  exists b, bucketize r = Some b /\
    forall ts, view b !! ts =
               if decide (ts ∈ timestamps r) then Some (merged (points r) ts) else None.
Proof.
  destruct (bucketize_put r) as (b & Hb & _ & Hview).
  exists b. split; [done|]. intros ts. rewrite Hview. apply foldl_put_lookup.
Qed.

Lemma last_written_last (ps1 ps3 : list point) (ts name : string)
    (d : AzureMonitorResponseTimeSeriesDatum) :
  TimeStamp d = ts ->
  (forall d', (name, d') ∈ ps3 -> TimeStamp d' ≠ ts) ->
  last_written (ps1 ++ (name, d) :: ps3) ts name = Some (Average d).
Proof.
  intros Hts Hlater. unfold last_written.
  rewrite filter_app, filter_cons, decide_True by done.
  replace (filter (fun p : point => TimeStamp p.2 = ts /\ p.1 = name) ps3)
    with (@nil point).
  - by rewrite last_snoc.
  - symmetry. induction ps3 as [|[n d'] ps3 IH]; [done|].
    rewrite filter_cons, decide_False.
    + apply IH. intros d'' Hin. apply Hlater. by right.
    + simpl. intros [Heq ->]. apply (Hlater d'); [by left|done].
Qed.

(** C4. When a metric name reports the same timestamp string twice in the
    traversal, the grouping pass still returns, the bucket of that timestamp
    holds one field under the name, and its value is the average of the last
    such datum visited; the emitted FieldSet carries the same field. *)
Theorem bucketize_last_writer_wins (r : AzureMonitorResponse) (ts name : string)
    (ps1 ps2 ps3 : list point) (d1 d2 : AzureMonitorResponseTimeSeriesDatum) :
  points r = ps1 ++ (name, d1) :: ps2 ++ (name, d2) :: ps3 ->
  TimeStamp d1 = ts -> TimeStamp d2 = ts ->
  (forall d, (name, d) ∈ ps3 -> TimeStamp d ≠ ts) ->
  exists b f,
    bucketize r = Some b /\ view b !! ts = Some f /\
    f = merged (points r) ts /\ f !! name = Some (Average d2).
Proof.
  intros Hps Ht1 Ht2 Hlater.
  destruct (bucketize_view r) as (b & Hb & Hview).
  exists b, (merged (points r) ts). split; [done|]. split; [|split; [done|]].
  - rewrite Hview, decide_True; [done|].
    unfold timestamps. rewrite Hps. apply list_elem_of_fmap.
    exists (name, d1). split; [done|]. apply elem_of_app. right. by left.
  - rewrite merged_lookup, Hps.
    change (ps1 ++ (name, d1) :: ps2 ++ (name, d2) :: ps3)
      with (ps1 ++ ((name, d1) :: ps2) ++ (name, d2) :: ps3).
    rewrite app_assoc. by apply last_written_last.
Qed.

Lemma bucketize_last_writer_wins_witness :
  exists b f,
    bucketize mixed_response = Some b /\
    view b !! "2024-01-01T00:00:00Z" = Some f /\
    f = merged (points mixed_response) "2024-01-01T00:00:00Z" /\
    f !! "Transactions" = Some 3%float.
Proof.
  apply (bucketize_last_writer_wins mixed_response "2024-01-01T00:00:00Z" "Transactions"
           []
           [("Transactions", {| Average := 2%float; TimeStamp := "2024-01-01T00:01:00Z" |})]
           [("Transactions", {| Average := 4%float; TimeStamp := "not-a-date" |});
            ("Ingress", {| Average := 5%float; TimeStamp := "2024-01-01T00:00:00Z" |})]
           {| Average := 1%float; TimeStamp := "2024-01-01T00:00:00Z" |}
           {| Average := 3%float; TimeStamp := "2024-01-01T00:00:00Z" |}).
  - reflexivity.
  - reflexivity.
  - reflexivity.
  - intros d Hin.
    apply elem_of_cons in Hin as [Hin|Hin]; [injection Hin as ->; discriminate|].
    apply elem_of_cons in Hin as [Hin|Hin]; [discriminate|].
    by apply not_elem_of_nil in Hin.
Defined.

(** C5. When the request fails, or the request succeeds and [parseResponse]
    returns an error, [Gather] returns that error and the accumulator has
    received nothing. *)
Theorem Gather_failure_emits_nothing `{X : Externals} (a : AzureMonitor) (e : error) :
  (ending (makeRequest a) = Returns (Err e) \/
   exists resp r, ending (makeRequest a) = Returns (Ok resp) /\
                  ending (parseResponse resp) = Returns (r, Some e)) ->
  ending (Gather a) = Returns (Some e) /\ added (events (Gather a)) = [].
Proof.
  pose proof (makeRequest_added a) as Hnone.
  unfold Gather. destruct (makeRequest a) as [l1 o1]. simpl in Hnone.
  intros [Hreq|(resp & r & Hreq & Hparse)]; simpl in Hreq; subst o1; simpl.
  - unfold events, ending; simpl. by rewrite app_nil_r.
  - destruct (parseResponse_events resp) as (l2 & p & Hp & Hnone2). rewrite Hp in *.
    simpl in Hparse. injection Hparse as ->. simpl.
    unfold events, ending; simpl. split; [done|].
    by rewrite app_nil_r, added_app, Hnone, Hnone2.
Qed.

Lemma Gather_failure_emits_nothing_witness :
  ending (@Gather reference (world (answers 404 not_found_body)) monitor) =
    Returns (Some (AzureMonitorError
                     ("Azure monitor request returned error. Status 404:" +:+ LF
                        +:+ not_found_body))) /\
  added (events (@Gather reference (world (answers 404 not_found_body)) monitor)) = [].
Proof.
  apply (@Gather_failure_emits_nothing reference (world (answers 404 not_found_body))).
  right. exists {| StatusCode := 404; Body := Ok not_found_body |}, AzureMonitorResponse_zero.
  split; vm_compute; reflexivity.
Defined.

Lemma NoDup_singleton_eq {A : Type} (l : list A) (x : A) :
  NoDup l -> (forall y, y ∈ l <-> y ∈ [x]) -> l = [x].
Proof.
  intros Hnodup Hl. apply Permutation_singleton_r.
  apply NoDup_Permutation; [done|apply NoDup_singleton|done].
Qed.

(** C6. When the server answers 200 with the body
    [{"value":[{"name":{"value":"Percentage CPU"},"timeseries":[{"data":
    [{"average":42.5,"timeStamp":"2024-01-01T00:00:00Z"}]}]}]}], the decoder
    fills from it the response whose other fields are zero, and the
    timestamp parses, then [parseResponse] returns that response without
    error and [Gather] returns no error after exactly one call of
    [AddFields]: measurement [azure_monitor], the single field
    [Percentage CPU] = 42.5, the single tag [resource_id] = the configured
    resource, at the parsed time. *)
Theorem Gather_percentage_cpu `{X : Externals} (a : AzureMonitor) (timestamp : Time) :
  ending (makeRequest a) = Returns (Ok {| StatusCode := 200; Body := Ok cpu_body |}) ->
  Decode cpu_body = Ok cpu_response ->
  time_Parse_RFC3339 "2024-01-01T00:00:00Z" = Ok timestamp ->
  ending (parseResponse {| StatusCode := 200; Body := Ok cpu_body |}) =
    Returns (cpu_response, None) /\
  ending (Gather a) = Returns None /\
  added (events (Gather a)) =
    [{| measurement := "azure_monitor";
        fields := {[ "Percentage CPU" := 42.5%float ]};
        tags := {[ "resource_id" := ResourceId a ]};
        t := [timestamp] |}].
Proof.
  intros Hreq Hdecode Htime.
  assert (Hparse : ending (parseResponse {| StatusCode := 200; Body := Ok cpu_body |}) =
                   Returns (cpu_response, None)).
  { unfold parseResponse. simpl. rewrite Hdecode. reflexivity. }
  split; [exact Hparse|].
  destruct (Gather_FieldSets a _ _ Hreq Hparse) as (keys & Hnodup & Hkeys & Hend & Hadd).
  split; [exact Hend|].
  assert (keys = ["2024-01-01T00:00:00Z"]) as ->.
  { apply NoDup_singleton_eq; [done|]. intros ts. rewrite Hkeys. reflexivity. }
  rewrite Hadd. cbn [omap list_omap].
  apply parsed_Some in Htime. rewrite Htime. cbn [fmap option_fmap option_map].
  unfold FieldSet.
  replace (merged (points cpu_response) "2024-01-01T00:00:00Z")
    with ({[ "Percentage CPU" := 42.5%float ]} : gmap string float)
    by (vm_compute; reflexivity).
  reflexivity.
Qed.

Lemma Gather_percentage_cpu_witness :
  ending (@Gather reference (world (answers 200 cpu_body)) monitor) = Returns None /\
  added (events (@Gather reference (world (answers 200 cpu_body)) monitor)) =
    [{| measurement := "azure_monitor";
        fields := {[ "Percentage CPU" := 42.5%float ]};
        tags := {[ "resource_id" := storage_account ]};
        t := [midnight] |}].
Proof.
  destruct (@Gather_percentage_cpu reference (world (answers 200 cpu_body)) monitor
              midnight)
    as (_ & Hend & Hadd).
  - vm_compute. reflexivity.
  - vm_compute. reflexivity.
  - vm_compute. reflexivity.
  - split; [exact Hend|exact Hadd].
Defined.

Lemma range_slice_app {S A : Type} (body : S -> A -> option S) (l1 l2 : list A) (s : S) :
  range_slice body (l1 ++ l2) s =
  match range_slice body l1 s with
  | Some s' => range_slice body l2 s'
  | None => None
  end.
Proof.
  revert s. induction l1 as [|x l1 IH]; intros s; simpl; [done|].
  destruct (body s x); [apply IH|done].
Qed.

(** C7. In a cycle whose request and parse succeed with an empty [Value]
    slice, the grouping pass leaves the map empty, [Gather] returns no
    error and the accumulator receives nothing.  And a metric whose
    [TimeSeries] is empty changes nothing: the grouping pass gives the same
    result as on the response without it. *)
Theorem Gather_empty_response `{X : Externals} (a : AzureMonitor)
    (resp : http_Response) (r : AzureMonitorResponse) :
  ending (makeRequest a) = Returns (Ok resp) ->
  ending (parseResponse resp) = Returns (r, None) ->
  Values r = [] ->
  bucketize r = Some buckets_empty /\
  ending (Gather a) = Returns None /\
  added (events (Gather a)) = [] /\
  (forall (r1 r2 : AzureMonitorResponse) vs1 value vs2,
     TimeSeries value = [] ->
     Values r1 = vs1 ++ value :: vs2 -> Values r2 = vs1 ++ vs2 ->
     bucketize r1 = bucketize r2).
Proof.
  intros Hreq Hparse Hvalues.
  destruct (Gather_FieldSets a resp r Hreq Hparse) as (keys & _ & Hkeys & Hend & Hadd).
  split; [|split; [done|split]].
  - unfold bucketize. by rewrite Hvalues.
  - assert (keys = []) as ->; [|by rewrite Hadd].
    destruct keys as [|ts keys]; [done|].
    assert (Hin : ts ∈ timestamps r) by (apply Hkeys; by left).
    unfold timestamps, points in Hin. rewrite Hvalues in Hin.
    by apply not_elem_of_nil in Hin.
  - intros r1 r2 vs1 value vs2 Hempty H1 H2. unfold bucketize.
    rewrite H1, H2, !range_slice_app.
    destruct (range_slice store_value vs1 buckets_empty) as [b|]; [|done].
    simpl. unfold store_value at 1. rewrite Hempty. reflexivity.
Qed.

Lemma Gather_empty_response_witness :
  ending (@Gather reference (world (answers 200 (quoted "{'value':[]}"))) monitor) =
    Returns None /\
  added (events (@Gather reference (world (answers 200 (quoted "{'value':[]}"))) monitor)) = [].
Proof.
  destruct (@Gather_empty_response reference (world (answers 200 (quoted "{'value':[]}")))
              monitor {| StatusCode := 200; Body := Ok (quoted "{'value':[]}") |}
              AzureMonitorResponse_zero)
    as (_ & Hend & Hadd & _).
  - vm_compute. reflexivity.
  - vm_compute. reflexivity.
  - reflexivity.
  - split; [exact Hend|exact Hadd].
Defined.

(** C8. [Init] with an empty [resource_id] returns the configuration error
    with no effect on the outside: the identity provider is not asked and
    nothing is sent.  With any other [resource_id] the identity provider is
    asked, once, and [Init] returns what comes of its answer. *)
Theorem Init_requires_resource_id `{X : Externals} (a : AzureMonitor) :
  (ResourceId a = "" ->
   Init a = ([], Returns (a, Some (errors_New "resource_id must be configured")))) /\
  (ResourceId a <> "" ->
   events (Init a) = [ev_NewAuthorizerFromEnvironment] /\
   ending (Init a) =
     Returns match NewAuthorizerFromEnvironment with
             | Err err => (a, Some (call_error auth_NewAuthorizerFromEnvironment err))
             | Ok authorizer =>
                 ({| ResourceId := ResourceId a; authorizer := Some authorizer |}, None)
             end).
Proof.
  unfold Init. split.
  - intros ->. reflexivity.
  - intros Hne. apply String.eqb_neq in Hne. rewrite Hne.
    destruct NewAuthorizerFromEnvironment; done.
Qed.

(** With no [resource_id], [Init] fails the same way where the identity
    provider would have answered. *)
Example Init_empty_resource_id :
  @Init reference (world (answers 200 cpu_body)) {| ResourceId := ""; authorizer := None |} =
  ([], Returns ({| ResourceId := ""; authorizer := None |},
                Some (errors_New "resource_id must be configured"))).
Proof. reflexivity. Qed.

Example Init_sets_authorizer :
  @Init reference (world (answers 200 cpu_body))
        {| ResourceId := storage_account; authorizer := None |} =
  ([ev_NewAuthorizerFromEnvironment], Returns (monitor, None)).
Proof. reflexivity. Qed.

(** C9. The FieldSets are a function of the response.  Two cycles that
    obtain the same response and read timestamps alike emit the same
    FieldSets, whatever order their maps are ranged over in and whatever else
    differs around them: the two sequences of emitted metrics are
    permutations of each other. *)
Theorem Gather_same_FieldSets `{F : Foreign} (X1 X2 : Externals) (a : AzureMonitor)
    (resp1 resp2 : http_Response) (r : AzureMonitorResponse) :
  (forall ts, @time_Parse_RFC3339 F X1 ts = @time_Parse_RFC3339 F X2 ts) ->
  ending (@makeRequest F X1 a) = Returns (Ok resp1) ->
  ending (@parseResponse F X1 resp1) = Returns (r, None) ->
  ending (@makeRequest F X2 a) = Returns (Ok resp2) ->
  ending (@parseResponse F X2 resp2) = Returns (r, None) ->
  bucketize r <> None /\
  added (events (@Gather F X1 a)) ≡ₚ added (events (@Gather F X2 a)).
Proof.
  intros Htime Hreq1 Hparse1 Hreq2 Hparse2.
  split.
  { destruct (bucketize_put r) as (b & -> & _). done. }
  destruct (@Gather_FieldSets F X1 a resp1 r Hreq1 Hparse1)
    as (keys1 & Hnodup1 & Hkeys1 & _ & ->).
  destruct (@Gather_FieldSets F X2 a resp2 r Hreq2 Hparse2)
    as (keys2 & Hnodup2 & Hkeys2 & _ & ->).
  assert (Hperm : keys1 ≡ₚ keys2).
  { apply NoDup_Permutation; [done..|]. intros ts. by rewrite Hkeys1, Hkeys2. }
  rewrite Hperm.
  assert (Hext : forall ts, FieldSet a r ts <$> @parsed F X1 ts =
                            FieldSet a r ts <$> @parsed F X2 ts).
  { intros ts. unfold parsed. by rewrite Htime. }
  clear -Hext. induction keys2 as [|ts keys2 IH]; [done|].
  cbn [omap list_omap]. rewrite Hext.
  destruct (FieldSet a r ts <$> @parsed F X2 ts); by rewrite IH.
Qed.

Lemma Gather_same_FieldSets_witness :
  added (events (@Gather reference (world (answers 200 mixed_body)) monitor)) ≡ₚ
  added (events (@Gather reference (world_reversed (answers 200 mixed_body)) monitor)).
Proof.
  apply (@Gather_same_FieldSets reference
           (world (answers 200 mixed_body)) (world_reversed (answers 200 mixed_body))
           monitor
           {| StatusCode := 200; Body := Ok mixed_body |}
           {| StatusCode := 200; Body := Ok mixed_body |} mixed_response).
  - intros ts. reflexivity.
  - vm_compute. reflexivity.
  - vm_compute. reflexivity.
  - vm_compute. reflexivity.
  - vm_compute. reflexivity.
Defined.

(** The two range orders do emit in different orders. *)
Example range_order_shows :
  added (events (@Gather reference (world (answers 200 mixed_body)) monitor)) =
  reverse (added (events (@Gather reference (world_reversed (answers 200 mixed_body)) monitor)))
  /\
  added (events (@Gather reference (world (answers 200 mixed_body)) monitor)) <>
  added (events (@Gather reference (world_reversed (answers 200 mixed_body)) monitor)).
Proof.
  split.
  - vm_compute. reflexivity.
  - vm_compute. intros H. inversion H.
Qed.

(** C10. Every metric [Gather] hands to the accumulator in a cycle whose
    request and parse succeed is measured as [azure_monitor], is tagged with
    [resource_id] = the configured resource and nothing else, has at least
    one field, and stands for a timestamp string that parses to its time and
    such that each of its fields is, under the name of a metric of the
    response, the average of a datum of that metric with exactly that
    timestamp string. *)
Theorem Gather_FieldSet_invariant `{X : Externals} (a : AzureMonitor)
    (resp : http_Response) (r : AzureMonitorResponse) (m : Metric) :
  ending (makeRequest a) = Returns (Ok resp) ->
  ending (parseResponse resp) = Returns (r, None) ->
  m ∈ added (events (Gather a)) ->
  measurement m = "azure_monitor" /\
  tags m = {[ "resource_id" := ResourceId a ]} /\
  fields m <> ∅ /\
  exists ts timestamp,
    time_Parse_RFC3339 ts = Ok timestamp /\ t m = [timestamp] /\
    forall name x, fields m !! name = Some x ->
      exists value series d,
        value ∈ Values r /\ series ∈ TimeSeries value /\ d ∈ Data series /\
        Value (Name value) = name /\ TimeStamp d = ts /\ Average d = x.
Proof.
  intros Hreq Hparse Hm.
  destruct (Gather_FieldSets a resp r Hreq Hparse) as (keys & _ & Hkeys & _ & Hadd).
  rewrite Hadd in Hm. apply list_elem_of_omap in Hm as (ts & Hin & Hm).
  destruct (parsed ts) as [timestamp|] eqn:Hp; [|done].
  simpl in Hm. injection Hm as <-. simpl.
  split; [done|]. split; [done|]. split.
  - apply Hkeys in Hin. unfold timestamps in Hin.
    apply list_elem_of_fmap in Hin as ([name d] & Hts & Hpoint). simpl in Hts.
    destruct (last_written_is_Some (points r) ts name d Hpoint) as [x Hx]; [done|].
    rewrite <- merged_lookup in Hx. intros Hempty.
    rewrite Hempty, lookup_empty in Hx. done.
  - exists ts, timestamp. split; [by apply parsed_Some|]. split; [done|].
    intros name x Hx. rewrite merged_lookup in Hx.
    apply last_written_Some in Hx as (d & Hpoint & Hts & Havg).
    apply elem_of_points in Hpoint as (value & series & Hv & Hs & Hd & ->).
    eauto 10.
Qed.

Lemma Gather_FieldSet_invariant_witness :
  fields (FieldSet monitor mixed_response "2024-01-01T00:01:00Z"
            ({| unixSec := 1704067260; nsec := 0; zoneOffset := 0 |} : @Time reference))
    <> ∅.
Proof.
  destruct (@Gather_FieldSet_invariant reference (world (answers 200 mixed_body)) monitor
              {| StatusCode := 200; Body := Ok mixed_body |} mixed_response
              (FieldSet monitor mixed_response "2024-01-01T00:01:00Z"
                 ({| unixSec := 1704067260; nsec := 0; zoneOffset := 0 |} : @Time reference)))
    as (_ & _ & Hfields & _).
  - vm_compute. reflexivity.
  - vm_compute. reflexivity.
  - vm_compute. first [ left | right; left ].
  - exact Hfields.
Defined.

(** * Further properties of the file *)

(** ** [makeRequest] *)

(** The five ways through [makeRequest]. *)
Lemma makeRequest_cases `{X : Externals} (a : AzureMonitor) :
  (exists text, NewRequest "GET" (metrics_url (ResourceId a)) = Err text /\
     makeRequest a = ([], Returns (Err (call_error http_NewRequest text)))) \/
  (exists req, NewRequest "GET" (metrics_url (ResourceId a)) = Ok req /\
     ((authorizer a = None /\ makeRequest a = ([], Panics)) \/
      (exists au, authorizer a = Some au /\
         ((exists text, Prepare au req = Err text /\
             makeRequest a =
               ([ev_Prepare req], Returns (Err (call_error autorest_Prepare text)))) \/
          (exists req', Prepare au req = Ok req' /\
             ((exists text, Client_Do req' = Err text /\
                 makeRequest a =
                   ([ev_Prepare req; ev_Do req'],
                    Returns (Err (call_error http_Client_Do text)))) \/
              (exists resp, Client_Do req' = Ok resp /\
                 makeRequest a = ([ev_Prepare req; ev_Do req'], Returns (Ok resp))))))))).
Proof.
  unfold makeRequest. fold (metrics_url (ResourceId a)).
  destruct (NewRequest "GET" (metrics_url (ResourceId a))) as [req|text]; [right|left; eauto].
  exists req. split; [done|].
  destruct (authorizer a) as [au|]; [right|left; done].
  exists au. split; [done|]. simpl.
  destruct (Prepare au req) as [req'|text]; [right|left; eauto].
  exists req'. split; [done|]. simpl.
  destruct (Client_Do req') as [resp|text]; [right|left]; eauto.
Qed.

(** X1. A request reaches the network only as the authorizer prepared it:
    when [makeRequest] hands a request to [client.Do], the authorizer is set,
    the request is what [Prepare] made, with that authorizer, of the GET
    request for the metrics URL of the resource, and the trace is that one
    preparation followed by that one call. *)
Theorem makeRequest_sends_prepared `{X : Externals} (a : AzureMonitor) (req' : Request) :
  ev_Do req' ∈ events (makeRequest a) ->
  exists au req,
    authorizer a = Some au /\
    NewRequest "GET" (metrics_url (ResourceId a)) = Ok req /\
    Prepare au req = Ok req' /\
    events (makeRequest a) = [ev_Prepare req; ev_Do req'].
Proof.
  intros Hin.
  destruct (makeRequest_cases a)
    as [(text & _ & Hm)|(req & Hreq & [[_ Hm]|(au & Hau & [(text & _ & Hm)|
         (req2 & Hprep & [(text & _ & Hm)|(resp & _ & Hm)])])])];
    rewrite Hm in Hin |- *; unfold events in *; simpl in *.
  - by apply not_elem_of_nil in Hin.
  - by apply not_elem_of_nil in Hin.
  - apply list_elem_of_singleton in Hin. discriminate.
  - apply elem_of_cons in Hin as [Hin|Hin]; [discriminate|].
    apply list_elem_of_singleton in Hin. injection Hin as ->. eauto 10.
  - apply elem_of_cons in Hin as [Hin|Hin]; [discriminate|].
    apply list_elem_of_singleton in Hin. injection Hin as ->. eauto 10.
Qed.

Lemma makeRequest_sends_prepared_witness :
  exists au req,
    authorizer monitor = Some au /\
    @NewRequest reference (world (answers 200 cpu_body)) "GET"
      (metrics_url storage_account) = Ok req /\
    @Prepare reference (world (answers 200 cpu_body)) au req =
      Ok {| Method := "GET"; URL := metrics_url storage_account;
            Authorization := Some "Bearer token" |}.
Proof.
  destruct (@makeRequest_sends_prepared reference (world (answers 200 cpu_body)) monitor
              {| Method := "GET"; URL := metrics_url storage_account;
                 Authorization := Some "Bearer token" |})
    as (au & req & Hau & Hreq & Hprep & _).
  - vm_compute. right. left.
  - exists au, req. split; [exact Hau|]. split; [exact Hreq|exact Hprep].
Defined.

(** X2. How [makeRequest] ends tells what it did.  It panics only on a nil
    authorizer, and then nothing was prepared or sent; when [NewRequest]
    fails nothing was prepared or sent; when [Prepare] fails nothing was
    sent; a response or the error of [client.Do] comes from exactly one
    call.  It returns no error of any other origin. *)
Theorem makeRequest_ending_and_trace `{X : Externals} (a : AzureMonitor) :
  match ending (makeRequest a) with
  | Panics => authorizer a = None /\ events (makeRequest a) = []
  | Returns (Ok _) => exists req, length (sent (events (makeRequest a))) = 1 /\
                        events (makeRequest a) =
                          ev_Prepare req :: (ev_Do <$> sent (events (makeRequest a)))
  | Returns (Err (call_error http_NewRequest _)) => events (makeRequest a) = []
  | Returns (Err (call_error autorest_Prepare _)) =>
      exists req, events (makeRequest a) = [ev_Prepare req]
  | Returns (Err (call_error http_Client_Do _)) =>
      exists req, length (sent (events (makeRequest a))) = 1 /\
                  events (makeRequest a) =
                    ev_Prepare req :: (ev_Do <$> sent (events (makeRequest a)))
  | Returns (Err _) => False
  end.
Proof.
  destruct (makeRequest_cases a)
    as [(text & _ & Hm)|(req & Hreq & [[Hnil Hm]|(au & Hau & [(text & _ & Hm)|
         (req2 & Hprep & [(text & _ & Hm)|(resp & _ & Hm)])])])];
    rewrite Hm; unfold events, ending; simpl; eauto.
Qed.

(** ** [parseResponse] *)

(** The ways through [parseResponse]: the body is read first and closed
    last, and the decoder runs in between or not at all. *)
Lemma parseResponse_cases `{X : Externals} (resp : http_Response) :
  (exists e, parseResponse resp =
     ([ev_ReadAll; ev_Close], Returns (AzureMonitorResponse_zero, Some e))) \/
  (exists body p, Body resp = Ok body /\
     (p = (AzureMonitorResponse_zero, p.2) \/ p.2 = None) /\
     parseResponse resp = ([ev_ReadAll; ev_Decode body; ev_Close], Returns p)).
Proof.
  unfold parseResponse.
  destruct (Body resp) as [body|err]; simpl; [|eauto].
  destruct ((StatusCode resp <? 200)%Z || (StatusCode resp >? 299)%Z); simpl; [eauto|].
  right. exists body.
  destruct (Decode body) as [response|err]; simpl.
  - exists (response, None). split; [done|]. split; [by right|done].
  - exists (AzureMonitorResponse_zero, Some (call_error json_Decode err)).
    split; [done|]. split; [by left|done].
Qed.

(** X3. [parseResponse] never returns a response together with an error:
    with an error comes [AzureMonitorResponse{}], whatever the decoder had
    filled in before it failed. *)
Theorem parseResponse_error_zero `{X : Externals} (resp : http_Response)
    (r : AzureMonitorResponse) (e : error) :
  ending (parseResponse resp) = Returns (r, Some e) ->
  r = AzureMonitorResponse_zero.
Proof.
  destruct (parseResponse_cases resp) as [(e' & ->)|(body & p & _ & Hp & ->)];
    unfold ending; simpl.
  - congruence.
  - intros [= ->]. destruct Hp as [Hp|Hp]; simpl in Hp; congruence.
Qed.

Lemma parseResponse_error_zero_witness :
  ending (@parseResponse reference (world (answers 200 "{"))
            {| StatusCode := 200; Body := Ok "{" |}) =
    Returns (AzureMonitorResponse_zero, Some (call_error json_Decode "json: syntax error")) /\
  AzureMonitorResponse_zero = AzureMonitorResponse_zero.
Proof.
  split; [vm_compute; reflexivity|].
  apply (@parseResponse_error_zero reference (world (answers 200 "{"))
           {| StatusCode := 200; Body := Ok "{" |} AzureMonitorResponse_zero
           (call_error json_Decode "json: syntax error")).
  vm_compute. reflexivity.
Defined.

(** X4. On every path through [parseResponse] the body is read exactly
    once, first, and closed exactly once, last; in between the decoder runs
    at most once, on the bytes that were read. *)
Theorem parseResponse_reads_then_closes `{X : Externals} (resp : http_Response) :
  exists mid,
    events (parseResponse resp) = ev_ReadAll :: mid ++ [ev_Close] /\
    (mid = [] \/ exists body, Body resp = Ok body /\ mid = [ev_Decode body]).
Proof.
  destruct (parseResponse_cases resp) as [(e' & ->)|(body & p & Hbody & _ & ->)];
    unfold events; simpl.
  - exists []. eauto.
  - exists [ev_Decode body]. eauto.
Qed.

(** ** [Gather] as a whole *)

(** [Gather] follows [makeRequest]: it ends as [makeRequest] does when that
    gives no response, and otherwise goes on to read and close the body and,
    when the parse gives no error, to the calls of [AddFields]. *)
Lemma Gather_cases `{X : Externals} (a : AzureMonitor) :
  match ending (makeRequest a) with
  | Panics => Gather a = (events (makeRequest a), Panics)
  | Returns (Err e) => Gather a = (events (makeRequest a), Returns (Some e))
  | Returns (Ok resp) =>
      exists mid,
        (mid = [] \/ exists body, Body resp = Ok body /\ mid = [ev_Decode body]) /\
        ((exists e, Gather a =
            (events (makeRequest a) ++ ev_ReadAll :: mid ++ [ev_Close],
             Returns (Some e))) \/
         (exists ms, Gather a =
            (events (makeRequest a) ++ ev_ReadAll :: mid ++ ev_Close :: (ev_AddFields <$> ms),
             Returns None)))
  end.
Proof.
  destruct (makeRequest a) as [l1 [[resp|e]|]] eqn:Hm; unfold events, ending; simpl.
  - assert (Hreq : ending (makeRequest a) = Returns (Ok resp)) by (by rewrite Hm).
    destruct (parseResponse_cases resp) as [(e' & Hp)|(body & [r oe] & Hbody & Hr & Hp)].
    + exists []. split; [by left|]. left. exists e'.
      unfold Gather. rewrite Hm. simpl. rewrite Hp. simpl. rewrite ?app_nil_r; reflexivity.
    + exists [ev_Decode body]. split; [eauto|].
      destruct oe as [e'|].
      * left. exists e'. unfold Gather. rewrite Hm. simpl. rewrite Hp. simpl.
        rewrite ?app_nil_r; reflexivity.
      * right.
        assert (Hparse : ending (parseResponse resp) = Returns (r, None)) by (by rewrite Hp).
        destruct (bucketize_put r) as (b & Hb & [Hlt _] & _).
        exists (omap (metric_of b (<["resource_id" := ResourceId a]> ∅))
                     (map_range (fieldsByTimestamp b))).
        unfold Gather. rewrite Hm. simpl. rewrite Hp. simpl. rewrite Hb.
        rewrite emit_all_metrics.
        -- simpl. rewrite ?app_nil_r; reflexivity.
        -- intros [ts slot] Hin. rewrite map_range_perm in Hin.
           apply elem_of_map_to_list in Hin. simpl.
           apply lookup_lt_is_Some_2. eauto.
  - unfold Gather. rewrite Hm. simpl. rewrite ?app_nil_r; reflexivity.
  - unfold Gather. rewrite Hm. reflexivity.
Qed.

Lemma added_Decode_between `{F : Foreign} (P : string -> Prop) (mid : list event)
    (ms : list Metric) :
  (mid = [] \/ exists body, P body /\ mid = [ev_Decode body]) ->
  added (ev_ReadAll :: mid ++ ev_Close :: (ev_AddFields <$> ms)) = ms.
Proof.
  intros [->|(body & _ & ->)]; cbn; apply added_AddFields.
Qed.

(** X5. The order of a cycle.  After [makeRequest] has given a response,
    [Gather] reads the body, runs the decoder at most once, closes the body,
    and only then calls [AddFields]; nothing follows those calls.  After
    [makeRequest] has given no response [Gather] does nothing more: it
    neither reads nor closes a body and adds nothing. *)
Theorem Gather_trace_order `{X : Externals} (a : AzureMonitor) :
  match ending (makeRequest a) with
  | Returns (Ok resp) =>
      exists mid,
        (mid = [] \/ exists body, Body resp = Ok body /\ mid = [ev_Decode body]) /\
        events (Gather a) =
          events (makeRequest a)
            ++ ev_ReadAll :: mid ++ ev_Close :: (ev_AddFields <$> added (events (Gather a)))
  | _ => events (Gather a) = events (makeRequest a)
  end.
Proof.
  pose proof (Gather_cases a) as Hg. pose proof (makeRequest_added a) as Hnone.
  destruct (ending (makeRequest a)) as [[resp|e]|]; try (by rewrite Hg).
  destruct Hg as (mid & Hmid & [(e & Hg)|(ms & Hg)]); exists mid; (split; [done|]);
    rewrite Hg; unfold events; simpl.
  - rewrite added_app. unfold events in Hnone. rewrite Hnone.
    change [ev_Close] with (ev_Close :: (ev_AddFields <$> [])).
    rewrite (added_Decode_between _ mid [] Hmid). done.
  - rewrite added_app. unfold events in Hnone. rewrite Hnone.
    rewrite (added_Decode_between _ mid ms Hmid). done.
Qed.

(** X6. [Gather] panics exactly when the authorizer is nil and the request
    could be built: a plugin whose [Init] has set the authorizer always
    returns, and the grouping pass, with its writes through aliased maps,
    never panics. *)
Theorem Gather_panics_iff `{X : Externals} (a : AzureMonitor) :
  ending (Gather a) = Panics <->
  authorizer a = None /\
  exists req, NewRequest "GET" (metrics_url (ResourceId a)) = Ok req.
Proof.
  pose proof (Gather_cases a) as Hg.
  destruct (makeRequest_cases a)
    as [(text & Hnew & Hm)|(req & Hreq & [[Hnil Hm]|(au & Hau & [(text & _ & Hm)|
         (req2 & Hprep & [(text & _ & Hm)|(resp & _ & Hm)])])])];
    rewrite Hm in Hg; unfold ending, events in Hg; simpl in Hg.
  - rewrite Hg, Hnew. unfold ending; simpl. split; [done|]. intros [_ [? ?]]; done.
  - rewrite Hg. unfold ending; simpl. split; [eauto|done].
  - rewrite Hg, Hau. unfold ending; simpl. split; [done|]. intros [? _]; done.
  - rewrite Hg, Hau. unfold ending; simpl. split; [done|]. intros [? _]; done.
  - rewrite Hau.
    destruct Hg as (mid & _ & [(e & ->)|(ms & ->)]); unfold ending; simpl;
      (split; [done|]); intros [? _]; done.
Qed.

(** X7. With a nil authorizer [Gather] has no effect outside: nothing is
    prepared or sent, no body is read and the accumulator receives nothing,
    whether it panics or returns the error of building the request. *)
Theorem Gather_nil_authorizer_no_effect `{X : Externals} (a : AzureMonitor) :
  authorizer a = None ->
  events (Gather a) = [] /\
  (ending (Gather a) = Panics \/
   exists text, NewRequest "GET" (metrics_url (ResourceId a)) = Err text /\
                ending (Gather a) = Returns (Some (call_error http_NewRequest text))).
Proof.
  intros Hnil. pose proof (Gather_cases a) as Hg.
  destruct (makeRequest_cases a)
    as [(text & Hnew & Hm)|(req & Hreq & [[_ Hm]|(au & Hau & _)])];
    [| |congruence];
    rewrite Hm in Hg; unfold ending, events in Hg; simpl in Hg; rewrite Hg;
    unfold events, ending; simpl; eauto.
Qed.

Lemma Gather_nil_authorizer_no_effect_witness :
  events (@Gather reference (world (answers 200 cpu_body)) AzureMonitor_zero) = [] /\
  ending (@Gather reference (world (answers 200 cpu_body)) AzureMonitor_zero) = Panics.
Proof.
  destruct (@Gather_nil_authorizer_no_effect reference (world (answers 200 cpu_body))
              AzureMonitor_zero) as [Hevents _].
  - reflexivity.
  - split; [exact Hevents|vm_compute; reflexivity].
Defined.

(** X8. All or nothing: unless [Gather] returns nil, the accumulator has
    received nothing, be it that [Gather] returns an error or panics. *)
Theorem Gather_all_or_nothing `{X : Externals} (a : AzureMonitor) :
  ending (Gather a) <> Returns None ->
  added (events (Gather a)) = [].
Proof.
  intros Hend. pose proof (Gather_cases a) as Hg.
  pose proof (makeRequest_added a) as Hnone.
  destruct (ending (makeRequest a)) as [[resp|e]|]; try (by rewrite Hg).
  destruct Hg as (mid & Hmid & [(e & Hg)|(ms & Hg)]); rewrite Hg in Hend |- *.
  - unfold events; simpl. rewrite added_app. unfold events in Hnone. rewrite Hnone.
    exact (added_Decode_between _ mid [] Hmid).
  - by destruct Hend.
Qed.

Lemma Gather_all_or_nothing_witness :
  ending (@Gather reference (world (answers 200 (quoted "{'value':17}"))) monitor) <>
    Returns None /\
  added (events (@Gather reference (world (answers 200 (quoted "{'value':17}"))) monitor))
    = [].
Proof.
  assert (Hend : ending (@Gather reference (world (answers 200 (quoted "{'value':17}")))
                           monitor) <> Returns None)
    by (vm_compute; discriminate).
  split; [exact Hend|].
  exact (@Gather_all_or_nothing reference (world (answers 200 (quoted "{'value':17}")))
           monitor Hend).
Defined.

(** ** [Init], and [Init] before [Gather] *)

(** X9. After an [Init] that returned nil the plugin has the same, non-empty
    resource, its authorizer is the one the identity provider gave, and
    [Gather] on it returns: it does not panic. *)
Theorem Init_then_Gather `{X : Externals} (a a' : AzureMonitor) :
  ending (Init a) = Returns (a', None) ->
  ResourceId a' = ResourceId a /\ ResourceId a <> "" /\
  (exists au, NewAuthorizerFromEnvironment = Ok au /\ authorizer a' = Some au) /\
  exists err, ending (Gather a') = Returns err.
Proof.
  unfold Init. destruct (String.eqb (ResourceId a) "") eqn:Hid; [done|].
  apply String.eqb_neq in Hid.
  destruct NewAuthorizerFromEnvironment as [au|text]; [|done].
  unfold ending; simpl. intros [= <-]. simpl.
  split; [done|]. split; [done|]. split; [eauto|].
  pose proof (Gather_cases {| ResourceId := ResourceId a; authorizer := Some au |}) as Hg.
  destruct (makeRequest_cases {| ResourceId := ResourceId a; authorizer := Some au |})
    as [(text & _ & Hm)|(req & _ & [[Hnil _]|(au' & _ & [(text & _ & Hm)|
         (req2 & _ & [(text & _ & Hm)|(resp & _ & Hm)])])])];
    [|done| | |];
    rewrite Hm in Hg; unfold ending, events in Hg; simpl in Hg.
  1-3: rewrite Hg; unfold ending; simpl; eauto.
  destruct Hg as (mid & _ & [(e & ->)|(ms & ->)]); unfold ending; simpl; eauto.
Qed.

Lemma Init_then_Gather_witness :
  exists err, ending (@Gather reference (world (answers 200 cpu_body)) monitor) = Returns err.
Proof.
  destruct (@Init_then_Gather reference (world (answers 200 cpu_body))
              {| ResourceId := storage_account; authorizer := None |} monitor)
    as (_ & _ & _ & Hgather).
  - reflexivity.
  - exact Hgather.
Defined.

(** X10. An [Init] that returns an error leaves the plugin as it was, its
    authorizer included; the error is the configuration error when the
    resource is empty and the one of the identity provider otherwise. *)
Theorem Init_failure_keeps_plugin `{X : Externals} (a a' : AzureMonitor) (e : error) :
  ending (Init a) = Returns (a', Some e) ->
  a' = a /\
  ((ResourceId a = "" /\ e = errors_New "resource_id must be configured") \/
   (ResourceId a <> "" /\
    exists text, NewAuthorizerFromEnvironment = Err text /\
                 e = call_error auth_NewAuthorizerFromEnvironment text)).
Proof.
  unfold Init. destruct (String.eqb (ResourceId a) "") eqn:Hid.
  - apply String.eqb_eq in Hid. unfold ending; simpl. intros [= <- <-]. eauto.
  - apply String.eqb_neq in Hid.
    destruct NewAuthorizerFromEnvironment as [au|text]; unfold ending; simpl; [done|].
    intros [= <- <-]. eauto 10.
Qed.

Lemma Init_failure_keeps_plugin_witness :
  ending (@Init reference world_without_credentials monitor) =
    Returns (monitor,
             Some (call_error auth_NewAuthorizerFromEnvironment
                     "no credentials in the environment")) /\
  monitor = monitor.
Proof.
  split; [reflexivity|].
  apply (@Init_failure_keeps_plugin reference world_without_credentials monitor monitor
           (call_error auth_NewAuthorizerFromEnvironment
              "no credentials in the environment")).
  reflexivity.
Defined.

(** ** The grouping pass, further *)

Lemma range_slice_ext {S A : Type} (f g : S -> A -> option S) (l : list A) (s : S) :
  (forall s x, f s x = g s x) -> range_slice f l s = range_slice g l s.
Proof.
  intros Hfg. revert s. induction l as [|x l IH]; intros s; simpl; [done|].
  rewrite Hfg. destruct (g s x); [apply IH|done].
Qed.

(** Nested slice loops are one loop over the flattened slice. *)
Lemma range_slice_bind {S A B : Type} (body : S -> B -> option S) (flat : A -> list B)
    (l : list A) (s : S) :
  range_slice body (l ≫= flat) s =
  range_slice (fun s x => range_slice body (flat x) s) l s.
Proof.
  revert s. induction l as [|x l IH]; intros s; [done|].
  change ((x :: l) ≫= flat) with (flat x ++ (l ≫= flat)).
  rewrite range_slice_app. simpl.
  destruct (range_slice body (flat x) s); [apply IH|done].
Qed.

(** The three nested loops of the grouping pass are one loop over the
    points. *)
Lemma bucketize_points (r : AzureMonitorResponse) :
  bucketize r =
  range_slice (fun b (p : point) => store_datum p.1 b p.2) (points r) buckets_empty.
Proof.
  unfold bucketize, points. rewrite range_slice_bind.
  apply range_slice_ext. intros b value.
  unfold store_value, points_of_value. rewrite range_slice_bind.
  apply range_slice_ext. intros b' ts.
  unfold store_series, points_of_series. rewrite range_slice_bind.
  apply range_slice_ext. intros b'' d. simpl.
  destruct (store_datum (Value (Name value)) b'' d); done.
Qed.

(** X11. The grouping pass sees nothing of a response but its data in
    traversal order, each with the name of its metric: two responses with
    the same such sequence give the same maps, however the data are split
    into series and whatever the metadata values, units, cost and other
    fields are. *)
Theorem bucketize_sees_points_only (r1 r2 : AzureMonitorResponse) :
  points r1 = points r2 -> bucketize r1 = bucketize r2.
Proof. intros Hps. by rewrite !bucketize_points, Hps. Qed.

Lemma bucketize_sees_points_only_witness :
  Cost mixed_response <> Cost mixed_response_flat /\
  bucketize mixed_response = bucketize mixed_response_flat.
Proof.
  split.
  - vm_compute. discriminate.
  - apply (bucketize_sees_points_only mixed_response mixed_response_flat).
    reflexivity.
Defined.

(** One step of the loop keeps as many inner maps as there are timestamps. *)
Lemma store_datum_allocates (name : string) (b b' : buckets)
    (d : AzureMonitorResponseTimeSeriesDatum) :
  store_datum name b d = Some b' ->
  length (inner b) = size (fieldsByTimestamp b) ->
  length (inner b') = size (fieldsByTimestamp b').
Proof.
  unfold store_datum.
  destruct (fieldsByTimestamp b !! TimeStamp d) as [slot|] eqn:Hts.
  - rewrite Hts. destruct (inner b !! slot); [|done].
    intros [= <-]. simpl. by rewrite length_insert.
  - simpl. rewrite lookup_insert_eq.
    destruct ((inner b ++ [∅]) !! length (inner b)); [|done].
    intros [= <-] Hsize. simpl.
    rewrite length_insert, length_app, map_size_insert_None by done.
    simpl. lia.
Qed.

Lemma range_slice_invariant {S A : Type} (I : S -> Prop) (body : S -> A -> option S) :
  (forall s x s', body s x = Some s' -> I s -> I s') ->
  forall l s s', range_slice body l s = Some s' -> I s -> I s'.
Proof.
  intros Hbody l. induction l as [|x l IH]; intros s s'; simpl.
  - by intros [= <-].
  - destruct (body s x) as [s1|] eqn:Hx; [|done]. eauto.
Qed.

(** X12. The grouping pass makes one inner map per distinct timestamp
    string and no more: when it is done, every entry of [fieldsByTimestamp]
    refers to an allocated inner map, no two entries share one, and there
    are as many inner maps as entries, which is the number of distinct
    timestamp strings of the response. *)
Theorem bucketize_one_map_per_timestamp (r : AzureMonitorResponse) :
  exists b, bucketize r = Some b /\ wf b /\
    length (inner b) = size (fieldsByTimestamp b) /\
    size (fieldsByTimestamp b) = length (remove_dups (timestamps r)).
Proof.
  destruct (bucketize_put r) as (b & Hb & Hwf & Hview).
  exists b. split; [done|]. split; [done|]. split.
  - rewrite bucketize_points in Hb.
    apply (range_slice_invariant
             (fun b => length (inner b) = size (fieldsByTimestamp b))
             (fun b (p : point) => store_datum p.1 b p.2)) in Hb; [done| |done].
    intros s p s'. apply store_datum_allocates.
  - rewrite <- length_map_to_list, <- (length_fmap fst).
    apply Permutation_length, NoDup_Permutation.
    + apply NoDup_fst_map_to_list.
    + apply NoDup_remove_dups.
    + intros ts. rewrite elem_of_remove_dups.
      rewrite <- (proj1 (bucket_keys r b ts Hwf Hview)).
      rewrite list_elem_of_fmap. split.
      * intros ([ts' slot] & -> & Hin). apply elem_of_map_to_list in Hin. eauto.
      * intros [slot Hslot]. exists (ts, slot). split; [done|].
        by apply elem_of_map_to_list.
Qed.

(** A timestamp string is in the response when some name was written under
    it. *)
Lemma timestamps_last_written (r : AzureMonitorResponse) (ts : string) :
  ts ∈ timestamps r <-> exists name, is_Some (last_written (points r) ts name).
Proof.
  unfold timestamps. rewrite list_elem_of_fmap. split.
  - intros ([name d] & -> & Hin). exists name.
    by apply (last_written_is_Some _ _ _ d).
  - intros (name & x & Hx). apply last_written_Some in Hx as (d & Hin & Hts & _).
    exists (name, d). done.
Qed.

(** The buckets are decided by the last datum of each name under each
    timestamp string. *)
Lemma view_last_written (r1 r2 : AzureMonitorResponse) :
  (forall ts name, last_written (points r1) ts name = last_written (points r2) ts name) ->
  exists b1 b2, bucketize r1 = Some b1 /\ bucketize r2 = Some b2 /\ view b1 = view b2.
Proof.
  intros Hlast.
  destruct (bucketize_view r1) as (b1 & Hb1 & Hv1).
  destruct (bucketize_view r2) as (b2 & Hb2 & Hv2).
  exists b1, b2. split; [done|]. split; [done|].
  apply map_eq. intros ts. rewrite Hv1, Hv2.
  assert (Hmerged : merged (points r1) ts = merged (points r2) ts).
  { apply map_eq. intros name. by rewrite !merged_lookup. }
  assert (Hts : ts ∈ timestamps r1 <-> ts ∈ timestamps r2).
  { rewrite !timestamps_last_written. by setoid_rewrite Hlast. }
  rewrite Hmerged.
  destruct (decide (ts ∈ timestamps r1)) as [H1|H1].
  - by rewrite decide_True by (by apply Hts).
  - by rewrite decide_False by (by rewrite <- Hts).
Qed.

Lemma filter_bind {A B : Type} (P : B -> Prop) `{forall x, Decision (P x)}
    (f : A -> list B) (l : list A) :
  filter P (l ≫= f) = l ≫= (fun x => filter P (f x)).
Proof.
  induction l as [|x l IH]; [done|].
  change ((x :: l) ≫= f) with (f x ++ (l ≫= f)).
  rewrite filter_app, IH. done.
Qed.

(** The points of a metric carry its name. *)
Lemma points_of_value_name (value : AzureMonitorResponseValue) (p : point) :
  p ∈ points_of_value value -> p.1 = Value (Name value).
Proof.
  unfold points_of_value, points_of_series.
  intros (ts & Hp & _)%list_elem_of_bind.
  apply list_elem_of_bind in Hp as (d & Hp & _).
  apply list_elem_of_singleton in Hp. by subst p.
Qed.

Lemma filter_other_name (value : AzureMonitorResponseValue) (ts name : string) :
  Value (Name value) <> name ->
  filter (fun p : point => TimeStamp p.2 = ts /\ p.1 = name) (points_of_value value) = [].
Proof.
  intros Hne.
  destruct (filter _ (points_of_value value)) as [|p l] eqn:Hf; [done|].
  assert (Hin : p ∈ filter (fun p : point => TimeStamp p.2 = ts /\ p.1 = name)
                      (points_of_value value)) by (rewrite Hf; by left).
  apply list_elem_of_filter in Hin as [[_ Hn] Hin].
  apply points_of_value_name in Hin. congruence.
Qed.

(** With distinct names, the data written under one name and timestamp
    string come from one metric, wherever it stands in the slice. *)
Lemma filter_points_Permutation (ts name : string) (vs1 vs2 : list AzureMonitorResponseValue) :
  vs1 ≡ₚ vs2 ->
  NoDup ((fun v => Value (Name v)) <$> vs1) ->
  vs1 ≫= (fun v => filter (fun p : point => TimeStamp p.2 = ts /\ p.1 = name)
                          (points_of_value v)) =
  vs2 ≫= (fun v => filter (fun p : point => TimeStamp p.2 = ts /\ p.1 = name)
                          (points_of_value v)).
Proof.
  induction 1 as [|x l l' Hperm IH|x y l|l l' l'' Hperm1 IH1 Hperm2 IH2]; intros Hnodup.
  - done.
  - rewrite fmap_cons in Hnodup. apply NoDup_cons in Hnodup as [_ Hnodup].
    change ((x :: l) ≫= ?f) with (f x ++ (l ≫= f)).
    change ((x :: l') ≫= ?f) with (f x ++ (l' ≫= f)).
    by rewrite IH.
  - rewrite !fmap_cons in Hnodup. apply NoDup_cons in Hnodup as [Hne _].
    rewrite not_elem_of_cons in Hne. destruct Hne as [Hne _].
    change ((y :: x :: l) ≫= ?f) with (f y ++ f x ++ (l ≫= f)).
    change ((x :: y :: l) ≫= ?f) with (f x ++ f y ++ (l ≫= f)).
    destruct (decide (Value (Name x) = name)) as [Hx|Hx].
    + rewrite (filter_other_name y) by congruence. done.
    + rewrite (filter_other_name x) by done. done.
  - rewrite IH1 by done. apply IH2.
    by rewrite <- (fmap_Permutation _ _ _ Hperm1).
Qed.

(** X13. When no two metrics of a response have the same name, the order
    in which the response lists them does not matter to the grouping pass:
    listed in any other order they give the same buckets. *)
Theorem bucketize_metric_order (r1 r2 : AzureMonitorResponse) :
  NoDup ((fun v => Value (Name v)) <$> Values r1) ->
  Values r1 ≡ₚ Values r2 ->
  exists b1 b2, bucketize r1 = Some b1 /\ bucketize r2 = Some b2 /\ view b1 = view b2.
Proof.
  intros Hnodup Hperm. apply view_last_written. intros ts name.
  unfold last_written, points. rewrite !filter_bind.
  by rewrite (filter_points_Permutation ts name _ _ Hperm Hnodup).
Qed.

Lemma bucketize_metric_order_witness :
  Values mixed_response <> Values mixed_response_swapped /\
  exists b1 b2,
    bucketize mixed_response = Some b1 /\ bucketize mixed_response_swapped = Some b2 /\
    view b1 = view b2.
Proof.
  split; [vm_compute; discriminate|].
  apply (bucketize_metric_order mixed_response mixed_response_swapped).
  - apply (bool_decide_unpack _). vm_compute. exact I.
  - symmetry. apply reverse_Permutation.
Defined.

(** With a name shared by two metrics the order does matter: the later one
    wins the timestamp they both report. *)
Example order_matters_with_shared_names :
  let v (x : float) :=
    {| DisplayDescription := ""; ErrorCode := ""; Id := "";
       Name := {| LocalizedValue := ""; Value := "Egress" |};
       TimeSeries := [{| Data := [{| Average := x; TimeStamp := "2024-01-01T00:00:00Z" |}];
                         MetadataValues := [] |}];
       Type_ := ""; Unit := "" |} in
  let r (vs : list AzureMonitorResponseValue) :=
    {| Cost := 0%float; Interval := ""; Namespace := ""; ResourceRegion := "";
       Timespan := ""; Values := vs |} in
  view <$> bucketize (r [v 1%float; v 2%float]) =
    Some {[ "2024-01-01T00:00:00Z" := {[ "Egress" := 2%float ]} ]} /\
  view <$> bucketize (r [v 2%float; v 1%float]) =
    Some {[ "2024-01-01T00:00:00Z" := {[ "Egress" := 1%float ]} ]}.
Proof. split; vm_compute; reflexivity. Qed.

(** ** Timestamps that parse alike, or not at all *)

Lemma two_elements_split {A : Type} (l : list A) (x y : A) :
  x <> y -> x ∈ l -> y ∈ l ->
  exists l1 l2 l3 s1 s2,
    ((s1 = x /\ s2 = y) \/ (s1 = y /\ s2 = x)) /\ l = l1 ++ s1 :: l2 ++ s2 :: l3.
Proof.
  intros Hne Hx Hy.
  apply list_elem_of_split in Hx as (k1 & k2 & ->).
  apply elem_of_app in Hy as [Hy|Hy].
  - apply list_elem_of_split in Hy as (k1' & k1'' & ->).
    exists k1', k1'', k2, y, x. split; [by right|]. by rewrite <- app_assoc.
  - apply elem_of_cons in Hy as [Hy|Hy]; [congruence|].
    apply list_elem_of_split in Hy as (k2' & k2'' & ->).
    exists k1, k2', k2'', x, y. split; [by left|done].
Qed.

(** X14. The buckets are kept per timestamp string, not per instant: when
    two different timestamp strings of a response parse to the same time,
    [Gather] calls [AddFields] once for each, both times with that time;
    their fields are not merged. *)
Theorem Gather_same_instant_twice `{X : Externals} (a : AzureMonitor)
    (resp : http_Response) (r : AzureMonitorResponse) (ts1 ts2 : string)
    (timestamp : Time) :
  ending (makeRequest a) = Returns (Ok resp) ->
  ending (parseResponse resp) = Returns (r, None) ->
  ts1 <> ts2 -> ts1 ∈ timestamps r -> ts2 ∈ timestamps r ->
  time_Parse_RFC3339 ts1 = Ok timestamp -> time_Parse_RFC3339 ts2 = Ok timestamp ->
  exists l1 l2 l3 s1 s2,
    ((s1 = ts1 /\ s2 = ts2) \/ (s1 = ts2 /\ s2 = ts1)) /\
    added (events (Gather a)) =
      l1 ++ FieldSet a r s1 timestamp :: l2 ++ FieldSet a r s2 timestamp :: l3.
Proof.
  intros Hreq Hparse Hne Hin1 Hin2 Hp1 Hp2.
  destruct (Gather_FieldSets a resp r Hreq Hparse) as (keys & _ & Hkeys & _ & ->).
  apply Hkeys in Hin1, Hin2. apply parsed_Some in Hp1, Hp2.
  destruct (two_elements_split keys ts1 ts2 Hne Hin1 Hin2)
    as (k1 & k2 & k3 & s1 & s2 & Hs & ->).
  set (f := fun ts => FieldSet a r ts <$> parsed ts).
  exists (omap f k1), (omap f k2), (omap f k3), s1, s2. split; [done|].
  assert (Hf1 : f s1 = Some (FieldSet a r s1 timestamp))
    by (unfold f; destruct Hs as [[-> _]|[-> _]]; by rewrite ?Hp1, ?Hp2).
  assert (Hf2 : f s2 = Some (FieldSet a r s2 timestamp))
    by (unfold f; destruct Hs as [[_ ->]|[_ ->]]; by rewrite ?Hp1, ?Hp2).
  rewrite omap_app. cbn [omap list_omap]. rewrite Hf1.
  rewrite omap_app. cbn [omap list_omap]. rewrite Hf2. done.
Qed.

Lemma Gather_same_instant_twice_witness :
  length (added (events (@Gather reference (world (answers 200 same_instant_body)) monitor)))
    = 2 /\
  t <$> added (events (@Gather reference (world (answers 200 same_instant_body)) monitor))
    = [[midnight]; [midnight]].
Proof.
  destruct (@Gather_same_instant_twice reference (world (answers 200 same_instant_body))
              monitor {| StatusCode := 200; Body := Ok same_instant_body |}
              same_instant_response
              "2024-01-01T00:00:00Z" "2024-01-01T00:00:00+00:00" midnight)
    as (l1 & l2 & l3 & s1 & s2 & _ & _).
  - vm_compute. reflexivity.
  - vm_compute. reflexivity.
  - discriminate.
  - vm_compute. left.
  - vm_compute. right. left.
  - vm_compute. reflexivity.
  - vm_compute. reflexivity.
  - split; vm_compute; reflexivity.
Defined.

(** X15. When none of the timestamp strings of a response parses, the cycle
    still returns nil and the accumulator receives nothing: all the data
    are dropped without an error. *)
Theorem Gather_nothing_parses `{X : Externals} (a : AzureMonitor)
    (resp : http_Response) (r : AzureMonitorResponse) :
  ending (makeRequest a) = Returns (Ok resp) ->
  ending (parseResponse resp) = Returns (r, None) ->
  (forall ts, ts ∈ timestamps r -> exists e, time_Parse_RFC3339 ts = Err e) ->
  ending (Gather a) = Returns None /\ added (events (Gather a)) = [].
Proof.
  intros Hreq Hparse Hnone.
  destruct (Gather_FieldSets a resp r Hreq Hparse) as (keys & _ & Hkeys & Hend & ->).
  split; [done|].
  assert (Hall : forall ts, ts ∈ keys -> parsed ts = None).
  { intros ts Hin. destruct (Hnone ts) as [e He]; [by apply Hkeys|].
    unfold parsed. by rewrite He. }
  clear -Hall. induction keys as [|ts keys IH]; [done|].
  cbn [omap list_omap]. rewrite (Hall ts) by (by left). simpl.
  apply IH. intros ts' Hin. apply Hall. by right.
Qed.

Lemma Gather_nothing_parses_witness :
  points undated_response <> [] /\
  ending (@Gather reference (world (answers 200 undated_body)) monitor) = Returns None /\
  added (events (@Gather reference (world (answers 200 undated_body)) monitor)) = [].
Proof.
  split; [vm_compute; discriminate|].
  apply (@Gather_nothing_parses reference (world (answers 200 undated_body)) monitor
           {| StatusCode := 200; Body := Ok undated_body |} undated_response).
  - vm_compute. reflexivity.
  - vm_compute. reflexivity.
  - intros ts Hin. vm_compute in Hin.
    apply elem_of_cons in Hin as [->|Hin]; [eexists; vm_compute; reflexivity|].
    apply elem_of_cons in Hin as [->|Hin]; [eexists; vm_compute; reflexivity|].
    by apply not_elem_of_nil in Hin.
Defined.

(** ** The text of the provider error *)

(** The decimal form of a number holds no colon. *)
Lemma pretty_N_go_no_colon (x : N) (s : string) :
  (forall n, String.get n s <> Some ":"%char) ->
  forall n, String.get n (pretty_N_go x s) <> Some ":"%char.
Proof.
  revert s. induction (N.lt_wf_0 x) as [x _ IH]; intros s Hs.
  assert (x = 0 \/ 0 < x)%N as [->|Hpos] by lia.
  - by rewrite pretty_N_go_0.
  - rewrite pretty_N_go_step by done. apply IH; [by apply N.div_lt|].
    intros [|n]; simpl; [|apply Hs].
    unfold pretty_N_char. repeat case_match; discriminate.
Qed.

Lemma fmt_int_no_colon (z : Z) (n : nat) : String.get n (fmt_int z) <> Some ":"%char.
Proof.
  assert (Hempty : forall n, String.get n "" <> Some ":"%char) by (by intros [|?]).
  assert (Hpos : forall (p : positive) n, String.get n (pretty p) <> Some ":"%char).
  { intros p m. unfold pretty, pretty_positive, pretty, pretty_N.
    rewrite decide_False by done. by apply pretty_N_go_no_colon. }
  unfold fmt_int, pretty, pretty_Z. destruct z as [|p|p].
  - by destruct n as [|[|?]].
  - apply Hpos.
  - destruct n as [|n]; simpl; [discriminate|apply Hpos].
Qed.

(** Two texts cut at their first colon have the same parts. *)
Lemma append_colon_inj (p1 p2 r1 r2 : string) :
  (forall n, String.get n p1 <> Some ":"%char) ->
  (forall n, String.get n p2 <> Some ":"%char) ->
  p1 +:+ String ":" r1 = p2 +:+ String ":" r2 -> p1 = p2 /\ r1 = r2.
Proof.
  revert p2. induction p1 as [|c p1 IH]; intros [|c' p2] H1 H2; simpl.
  - by intros [= ->].
  - intros [= <- _]. by destruct (H2 0).
  - intros [= -> _]. by destruct (H1 0).
  - intros [= -> Heq].
    destruct (IH p2 (fun n => H1 (S n)) (fun n => H2 (S n)) Heq) as [-> ->]. done.
Qed.

(** X16. The text of the provider error can be read back: two responses
    with a status outside 200..299 whose errors have the same [Error()]
    text have the same status code and the same body. *)
Theorem provider_error_text_determines_response `{X : Externals}
    (resp1 resp2 : http_Response) (body1 body2 : string)
    (r1 r2 : AzureMonitorResponse) (e1 e2 : error) :
  Body resp1 = Ok body1 -> Body resp2 = Ok body2 ->
  (StatusCode resp1 < 200 \/ 299 < StatusCode resp1)%Z ->
  (StatusCode resp2 < 200 \/ 299 < StatusCode resp2)%Z ->
  ending (parseResponse resp1) = Returns (r1, Some e1) ->
  ending (parseResponse resp2) = Returns (r2, Some e2) ->
  Error e1 = Error e2 ->
  StatusCode resp1 = StatusCode resp2 /\ body1 = body2.
Proof.
  intros Hb1 Hb2 Hs1 Hs2. unfold parseResponse. rewrite Hb1, Hb2. simpl.
  replace ((StatusCode resp1 <? 200)%Z || (StatusCode resp1 >? 299)%Z) with true
    by (symmetry; apply orb_true_iff; lia).
  replace ((StatusCode resp2 <? 200)%Z || (StatusCode resp2 >? 299)%Z) with true
    by (symmetry; apply orb_true_iff; lia).
  unfold ending; simpl. intros [= <- <-] [= <- <-]. simpl.
  intros Htext. apply (inj (String.append _)) in Htext.
  apply append_colon_inj in Htext as [Hstatus Hrest]; [|apply fmt_int_no_colon..].
  split.
  - by apply (inj pretty).
  - by apply (inj (String.append LF)) in Hrest.
Qed.

Lemma provider_error_text_determines_response_witness :
  Error (AzureMonitorError
           ("Azure monitor request returned error. Status 404:" +:+ LF +:+ not_found_body)) =
  Error (AzureMonitorError
           ("Azure monitor request returned error. Status 404:" +:+ LF +:+ not_found_body)) /\
  (404 = 404)%Z /\ not_found_body = not_found_body.
Proof.
  split; [reflexivity|].
  apply (@provider_error_text_determines_response reference
           (world (answers 404 not_found_body))
           {| StatusCode := 404; Body := Ok not_found_body |}
           {| StatusCode := 404; Body := Ok not_found_body |}
           not_found_body not_found_body
           AzureMonitorResponse_zero AzureMonitorResponse_zero
           (AzureMonitorError
              ("Azure monitor request returned error. Status 404:" +:+ LF
                 +:+ not_found_body))
           (AzureMonitorError
              ("Azure monitor request returned error. Status 404:" +:+ LF
                 +:+ not_found_body))).
  - reflexivity.
  - reflexivity.
  - right. reflexivity.
  - right. reflexivity.
  - vm_compute. reflexivity.
  - vm_compute. reflexivity.
  - reflexivity.
Defined.
